(** * ex-GPT frontend: the client-side API layer and the search history

    A shallow embedding of
    - [frontend/src/utils/exgptAPI.js]: [API_CONFIG], [ImageSearchAPI],
      [ChatAPI], [HealthAPI] and [ExGPTAPI];
    - [frontend/src/components/content/SearchHistory/SearchHistory.jsx]:
      the history list and the favourites kept by the [SearchHistory]
      component;
    - [frontend/src/App.jsx]: the branch [handleSubmit] takes.

    Conventions.
    - A JavaScript string is represented by the UTF-8 encoding of its code
      points (a [string] of bytes).  UTF-8 is self-synchronising, so
      [String.prototype.includes] on well-formed strings is substring search
      on the bytes.
    - A JavaScript object used as a dictionary is a [gmap string JVal].
    - [fetch] and [setTimeout] are the only effects that matter here.  They
      are recorded in a trace of events; what the network answers is an
      arbitrary function of the moment of the call and of the request.
    - The numbers [page], [limit] and the offset are integer-valued
      doubles, represented by integers; the one product the code takes of
      them is rounded as IEEE-754 rounds it.
    - [console.log] and [console.error] are not modelled. *)

From Stdlib Require Import ZArith QArith_base String Ascii List Lia DecimalString.
From stdpp Require Import base gmap strings list.

Local Set Warnings "-register-all".
Close Scope Q_scope.
Local Open Scope string_scope.
Local Open Scope Z_scope.
Local Open Scope list_scope.

(** ** The JavaScript values the code handles *)

Module JS.

(** Values that [JSON.parse] produces, plus [undefined]; [JInf] is
    [Infinity] or, when [negative], [-Infinity]. *)
Inductive JVal : Type :=
| JUndefined
| JNull
| JBool (b : bool)
| JNum (q : Q)
| JInf (negative : bool)
| JStr (s : string)
| JArr (l : list JVal)
| JObj (m : gmap string JVal).

(** An [Error] object: the two properties the code reads. *)
Record JsError : Type := mkError { name : string; message : string }.

(** [new Error(msg)] *)
Definition Error (msg : string) : JsError :=
  {| name := "Error"; message := msg |}.

(** How an evaluation ends: with a value, or with a thrown error. *)
Inductive Completion (A : Type) : Type :=
| Normal (a : A)
| Throw (e : JsError).
Arguments Normal {A} a.
Arguments Throw {A} e.

(** ToBoolean *)
Definition truthy (v : JVal) : bool :=
  match v with
  | JUndefined | JNull => false
  | JBool b => b
  | JNum q => negb (Z.eqb (Qnum q) 0)
  | JStr s => negb (String.eqb s "")
  | JInf _ | JArr _ | JObj _ => true
  end.

(** [a || b] *)
Definition or_else (a b : JVal) : JVal := if truthy a then a else b.

(** [v !== false] *)
Definition not_false (v : JVal) : bool :=
  match v with
  | JBool false => false
  | _ => true
  end.

(** [v === s] for a string literal [s] *)
Definition is_str (v : JVal) (s : string) : bool :=
  match v with
  | JStr t => String.eqb t s
  | _ => false
  end.

(** The message V8 gives to the [TypeError] of a property read on [null]
    or [undefined]. *)
Definition cannot_read (v : string) (k : string) : JsError :=
  {| name := "TypeError";
     message := "Cannot read properties of " +:+ v +:+ " (reading '" +:+ k +:+ "')" |}.

(** [v.k] for the property names the code reads (none of them is a
    property of [String.prototype] or [Array.prototype]). *)
Definition get (v : JVal) (k : string) : Completion JVal :=
  match v with
  | JObj m => Normal (default JUndefined (m !! k))
  | JNull => Throw (cannot_read "null" k)
  | JUndefined => Throw (cannot_read "undefined" k)
  | _ => Normal JUndefined
  end.

(** [s.includes(t)] *)
Fixpoint includes (s t : string) : bool :=
  String.prefix t s ||
  match s with
  | EmptyString => false
  | String _ s' => includes s' t
  end.

(** The code points of WhiteSpace and LineTerminator, in UTF-8:
    U+0009..U+000D, U+0020, U+00A0, U+1680, U+2000..U+200A, U+2028,
    U+2029, U+202F, U+205F, U+3000, U+FEFF. *)
Definition utf8_2 (a b : ascii) : string := String a (String b "").
Definition utf8_3 (a b c : ascii) : string := String a (String b (String c "")).

Definition whiteSpace : list string :=
  [ String "009" ""; String "010" ""; String "011" ""; String "012" "";
    String "013" ""; String "032" "";
    utf8_2 "194" "160";
    utf8_3 "225" "154" "128";
    utf8_3 "226" "128" "128"; utf8_3 "226" "128" "129";
    utf8_3 "226" "128" "130"; utf8_3 "226" "128" "131";
    utf8_3 "226" "128" "132"; utf8_3 "226" "128" "133";
    utf8_3 "226" "128" "134"; utf8_3 "226" "128" "135";
    utf8_3 "226" "128" "136"; utf8_3 "226" "128" "137";
    utf8_3 "226" "128" "138";
    utf8_3 "226" "128" "168"; utf8_3 "226" "128" "169";
    utf8_3 "226" "128" "175"; utf8_3 "226" "129" "159";
    utf8_3 "227" "128" "128"; utf8_3 "239" "187" "191" ].

Fixpoint drop_bytes (n : nat) (s : string) : string :=
  match n, s with
  | S n', String _ s' => drop_bytes n' s'
  | _, _ => s
  end.

(** Remove one leading sequence of the table, if there is one. *)
Definition strip_one (tbl : list string) (s : string) : option string :=
  match List.find (fun w => String.prefix w s) tbl with
  | Some w => Some (drop_bytes (String.length w) s)
  | None => None
  end.

Fixpoint strip_leading (tbl : list string) (fuel : nat) (s : string) : string :=
  match fuel with
  | O => s
  | S fuel' =>
      match strip_one tbl s with
      | Some s' => strip_leading tbl fuel' s'
      | None => s
      end
  end.

Definition trimStart (s : string) : string :=
  strip_leading whiteSpace (String.length s) s.

Definition trimEnd (s : string) : string :=
  String.rev
    (strip_leading (List.map String.rev whiteSpace) (String.length s) (String.rev s)).

(** [s.trim()] *)
Definition trim (s : string) : string := trimEnd (trimStart s).

(** What the model takes from the engine as it is: [toLowerCase] (the
    Unicode case mapping) and the [/] operator (IEEE-754 on the operands'
    ToNumber). *)
Class Runtime : Type := {
  toLowerCase : string -> string;
  divide : JVal -> JVal -> JVal
}.

(** The double nearest to the integer [z], ties to the even significand,
    before overflow is looked at: an integer with more than 53 significant
    bits loses the others. *)
Definition round_double (z : Z) : Z :=
  let a := Z.abs z in
  let e := Z.log2 a - 52 in                 (* the bits beyond the 53rd *)
  if e <=? 0 then z
  else
    let q := Z.shiftr a e in
    let r := Z.land a (Z.ones e) in
    let half := Z.shiftl 1 (e - 1) in
    let q' := if (half <? r) || ((r =? half) && Z.odd q) then q + 1 else q in
    Z.sgn z * Z.shiftl q' e.

(** The number an arithmetic operation on integer-valued doubles gives
    when its exact result is [z]: the nearest double, or an infinity from
    [2^1024] on. *)
Definition double_of (z : Z) : JVal :=
  let r := round_double z in
  if Z.abs r <? 2 ^ 1024 then JNum (inject_Z r) else JInf (z <? 0).

(** Template literal [`${n}`] for an integer. *)
Definition show_Z (n : Z) : string :=
  DecimalString.NilZero.string_of_int (Z.to_int n).

End JS.
Import JS.

(** ** Effects: the network and the timer *)

Module Net.

Record Request : Type := {
  method : string;
  url : string;
  headers : list (string * string);
  body : option JVal;          (* the object given to [JSON.stringify] *)
  timeout : Z                  (* [AbortSignal.timeout(ms)] *)
}.

(** A [Response]: its status, and what [response.json()] settles to. *)
Record Response : Type := { status : Z; json : Completion JVal }.

(** [response.ok]: the status is in the range 200-299. *)
Definition ok (r : Response) : bool :=
  (200 <=? status r) && (status r <=? 299).

(** A [fetch] promise rejects (network failure, abort by the timeout
    signal) or resolves to a response, whatever its status. *)
Inductive FetchOutcome : Type :=
| Rejected (e : JsError)
| Resolved (r : Response).

Inductive Event : Type :=
| EFetch (req : Request)
| ESleep (ms : Z).

(** The environment: what the [n]-th event of the run, a [fetch] of
    [req], is answered with. *)
Definition Network : Type := nat -> Request -> FetchOutcome.

(** An [async] function body: it reads the network, extends the trace and
    completes normally or throws. *)
Definition Async (A : Type) : Type :=
  Network -> list Event -> Completion A * list Event.

#[global] Instance Async_ret : MRet Async :=
  fun A a _ tr => (Normal a, tr).

#[global] Instance Async_bind : MBind Async :=
  fun A B k m net tr =>
    match m net tr with
    | (Normal a, tr') => k a net tr'
    | (Throw e, tr') => (Throw e, tr')
    end.

#[global] Instance Async_fmap : FMap Async :=
  fun A B f m net tr =>
    match m net tr with
    | (Normal a, tr') => (Normal (f a), tr')
    | (Throw e, tr') => (Throw e, tr')
    end.

Definition throw {A} (e : JsError) : Async A :=
  fun _ tr => (Throw e, tr).

(** [try { m } catch (error) { h error }] *)
Definition try_catch {A} (m : Async A) (h : JsError -> Async A) : Async A :=
  fun net tr =>
    match m net tr with
    | (Normal a, tr') => (Normal a, tr')
    | (Throw e, tr') => h e net tr'
    end.

(** A synchronous evaluation inside an [async] body. *)
Definition eval {A} (c : Completion A) : Async A :=
  fun _ tr => (c, tr).

(** [await fetch(url, {method, headers, body, signal})] *)
Definition fetch (req : Request) : Async Response :=
  fun net tr =>
    (match net (List.length tr) req with
     | Rejected e => Throw e
     | Resolved r => Normal r
     end, tr ++ [EFetch req]).

(** [await response.json()] *)
Definition json_of (r : Response) : Async JVal := eval (json r).

(** [await new Promise(resolve => setTimeout(resolve, ms))] *)
Definition sleep (ms : Z) : Async unit :=
  fun _ tr => (Normal tt, tr ++ [ESleep ms]).

(** Run an [async] function from the empty trace. *)
Definition run {A} (m : Async A) (net : Network) : Completion A * list Event :=
  m net [].

(** A [FormData] body: its entries in the order of the [append] calls.
    In a request it is represented by the array of its [[name, value]]
    pairs; a [File] value is whatever value stands for the file. *)
Definition FormData : Type := list (string * JVal).

Definition form_append (formData : FormData) (k : string) (v : JVal) : FormData :=
  formData ++ [(k, v)].

Definition form_body (formData : FormData) : JVal :=
  JArr (List.map (fun e => JArr [JStr (fst e); snd e]) formData).

(** [fetch(url, { method: 'POST', body: formData, signal })]: no headers
    are given. *)
Definition post_form (u : string) (formData : FormData) (ms : Z) : Request :=
  {| method := "POST";
     url := u;
     headers := [];
     body := Some (form_body formData);
     timeout := ms |}.

End Net.
Import Net.

(** ** [API_CONFIG] *)

Module API_CONFIG.
Definition BACKEND_BASE_URL : string := "http://localhost:8201".
Definition TEST_BACKEND_URL : string := "http://localhost:8200".
Definition MULTIMODAL_BASE_URL : string := "http://localhost:8201".
Definition MCP_BASE_URL : string := "http://localhost:8201".
Definition TIMEOUT : Z := 120000.
Definition HEALTH_CHECK_TIMEOUT : Z := 5000.
Definition RETRY_COUNT : nat := 1.
Definition RETRY_DELAY : Z := 2000.
Definition DEFAULT_HEADERS : list (string * string) :=
  [("Content-Type", "application/json")].
End API_CONFIG.

(** ** [class ImageSearchAPI] *)

Module ImageSearchAPI.

(** The object [searchImages] returns. *)
Record SearchResult : Type := mkSearchResult {
  success : bool;
  backend : string;
  images : JVal;
  total_count : JVal;
  has_more : JVal;
  page : Z;
  processing_time : JVal;
  query : JVal
}.

Definition num (n : Z) : JVal := JNum (inject_Z n).

(** [(page - 1) * limit] on numbers: [page] and [limit] are integer-valued
    doubles; the difference is rounded (it cannot overflow), and so is the
    product, which can. *)
Definition offset (page limit : Z) : JVal :=
  double_of (round_double (page - 1) * limit).

Definition requestBody (query : string) (page limit : Z) : JVal :=
  JObj (<["query" := JStr query]>
       (<["limit" := num limit]>
       (<["offset" := offset page limit]>
       (<["filters" := JObj ∅]> ∅)))).

Definition request (baseUrl query : string) (page limit : Z) : Request :=
  {| method := "POST";
     url := baseUrl +:+ "/api/v1/search/images";
     headers := API_CONFIG.DEFAULT_HEADERS;
     body := Some (requestBody query page limit);
     timeout := API_CONFIG.TIMEOUT |}.

Definition backendType (baseUrl : string) : string :=
  if String.eqb baseUrl API_CONFIG.TEST_BACKEND_URL then "테스트" else "메인".

(** The test of the [catch] block: a refused connection, a network error
    or a timeout. *)
Definition connection_failure (error : JsError) : bool :=
  includes (message error) "Failed to fetch"
  || includes (message error) "ERR_CONNECTION_REFUSED"
  || String.eqb (name error) "TimeoutError".

Inductive LoopExit : Type :=
| Return (r : SearchResult)
| Done (lastError : option JsError).

Section searchImages.
Context `{Runtime}.
Variables (query : string) (page limit : Z).

(** The [try] block of one attempt. *)
Definition attempt_body (baseUrl : string) : Async SearchResult :=
  response ← fetch (request baseUrl query page limit);
  if negb (ok response)
  then throw (Error ("HTTP error! status: " +:+ show_Z (status response)))
  else
    data ← json_of response;
    d_success ← eval (get data "success");
    d_images ← eval (get data "images");
    d_total_count ← eval (get data "total_count");
    d_has_more ← eval (get data "has_more");
    d_search_time_ms ← eval (get data "search_time_ms");
    d_query ← eval (get data "query");
    mret (mkSearchResult
            (not_false d_success)                  (* success *)
            (backendType baseUrl)                  (* backend *)
            (or_else d_images (JArr []))           (* images *)
            (or_else d_total_count (num 0))        (* total_count *)
            (or_else d_has_more (JBool false))     (* has_more *)
            page                                   (* page *)
            (if truthy d_search_time_ms            (* processing_time *)
             then divide d_search_time_ms (num 1000)
             else num 0)
            (or_else d_query (JStr query))).       (* query *)

(** [for (let attempt = 0; attempt <= RETRY_COUNT; attempt++) { ... }]
    from [attempt] on; [fuel] bounds the iterations left. *)
Fixpoint attempts (baseUrl : string) (fuel attempt : nat)
    (lastError : option JsError) : Async LoopExit :=
  match fuel with
  | O => mret (Done lastError)
  | S fuel' =>
      if (attempt <=? API_CONFIG.RETRY_COUNT)%nat then
        try_catch
          (r ← attempt_body baseUrl; mret (Return r))
          (fun error =>
             let lastError := Some error in
             if connection_failure error
             then mret (Done lastError)                   (* break *)
             else
               _ ← (if (attempt <? API_CONFIG.RETRY_COUNT)%nat
                    then sleep API_CONFIG.RETRY_DELAY
                    else mret tt);
               attempts baseUrl fuel' (S attempt) lastError)
      else mret (Done lastError)
  end.

(** [for (const baseUrl of backendUrls) { ... }] *)
Fixpoint backends (backendUrls : list string)
    (lastError : option JsError) : Async LoopExit :=
  match backendUrls with
  | [] => mret (Done lastError)
  | baseUrl :: rest =>
      x ← attempts baseUrl (S API_CONFIG.RETRY_COUNT) 0 lastError;
      match x with
      | Return r => mret (Return r)
      | Done lastError => backends rest lastError
      end
  end.

Definition backendUrls : list string :=
  [API_CONFIG.MULTIMODAL_BASE_URL; API_CONFIG.TEST_BACKEND_URL].

(** [lastError?.message || '알 수 없는 오류'] *)
Definition failure_detail (lastError : option JsError) : string :=
  match lastError with
  | Some e => if String.eqb (message e) "" then "알 수 없는 오류" else message e
  | None => "알 수 없는 오류"
  end.

Definition searchImages : Async SearchResult :=
  x ← backends backendUrls None;
  match x with
  | Return r => mret r
  | Done lastError =>
      throw (Error ("이미지 검색 실패: " +:+ failure_detail lastError))
  end.

End searchImages.

Definition upload_url : string :=
  API_CONFIG.MULTIMODAL_BASE_URL +:+ "/api/v1/upload/image".

(** [uploadImageForSearch(file, description = '')] *)
Definition uploadImageForSearch (file : JVal) (description : string) : Async JVal :=
  try_catch
    (let formData := form_append (form_append [] "file" file)
                                 "description" (JStr description) in
     response ← fetch (post_form upload_url formData API_CONFIG.TIMEOUT);
     if negb (ok response)
     then throw (Error ("HTTP error! status: " +:+ show_Z (status response)))
     else json_of response)
    (fun error => throw (Error ("이미지 업로드 실패: " +:+ message error))).

End ImageSearchAPI.

(** ** [class ChatAPI] *)

Module ChatAPI.

(** [l.map(f)] where [f] may throw. *)
Fixpoint map_eval {A B} (f : A -> Completion B) (l : list A) : Completion (list B) :=
  match l with
  | [] => Normal []
  | x :: l' =>
      match f x with
      | Throw e => Throw e
      | Normal y =>
          match map_eval f l' with
          | Throw e => Throw e
          | Normal ys => Normal (y :: ys)
          end
      end
  end.

(** [options.k || d] *)
Definition option_or (options : JVal) (k : string) (d : JVal) : Completion JVal :=
  match get options k with
  | Normal v => Normal (or_else v d)
  | Throw e => Throw e
  end.

(** [options.k !== false] *)
Definition option_not_false (options : JVal) (k : string) : Completion JVal :=
  match get options k with
  | Normal v => Normal (JBool (not_false v))
  | Throw e => Throw e
  end.

(** [msg => ({ role: msg.role, content: msg.content,
               image_url: msg.image_url || null })] *)
Definition multimodal_message (msg : JVal) : Completion JVal :=
  match get msg "role", get msg "content", get msg "image_url" with
  | Normal r, Normal c, Normal i =>
      Normal (JObj (<["role" := r]> (<["content" := c]>
                   (<["image_url" := or_else i JNull]> ∅))))
  | Throw e, _, _ | _, Throw e, _ | _, _, Throw e => Throw e
  end.

(** [msg => ({ role: msg.role, content: msg.content })] *)
Definition history_message (msg : JVal) : Completion JVal :=
  match get msg "role", get msg "content" with
  | Normal r, Normal c => Normal (JObj (<["role" := r]> (<["content" := c]> ∅)))
  | Throw e, _ | _, Throw e => Throw e
  end.

(** The request body of the multimodal endpoint. *)
Definition multimodalBody (messages : list JVal) (options : JVal) : Async JVal :=
  ms ← eval (map_eval multimodal_message messages);
  session_id ← eval (option_or options "session_id" JNull);
  user_id ← eval (option_or options "user_id" JNull);
  temperature ← eval (option_or options "temperature" (JNum (Qmake 7 10)));
  max_tokens ← eval (option_or options "max_tokens" (JNum (inject_Z 1000)));
  mret (JObj (<["messages" := JArr ms]>
             (<["session_id" := session_id]>
             (<["user_id" := user_id]>
             (<["temperature" := temperature]>
             (<["max_tokens" := max_tokens]> ∅)))))).

(** The request body of the MCP endpoint. *)
Definition historyBody (messages : list JVal) (options : JVal) : Async JVal :=
  stream ← eval (option_or options "stream" (JBool false));
  history ← eval (map_eval history_message messages);
  message_id ← eval (option_or options "message_id" JNull);
  session_id ← eval (option_or options "session_id" JNull);
  user_id ← eval (option_or options "user_id" JNull);
  department_id ← eval (option_or options "department_id" JNull);
  search_documents ← eval (option_not_false options "search_documents");
  suggest_questions ← eval (option_or options "suggest_questions" (JBool false));
  generate_search_query ← eval (option_not_false options "generate_search_query");
  mret (JObj (<["stream" := stream]>
             (<["history" := JArr history]>
             (<["message_id" := message_id]>
             (<["session_id" := session_id]>
             (<["user_id" := user_id]>
             (<["department_id" := department_id]>
             (<["search_documents" := search_documents]>
             (<["suggest_questions" := suggest_questions]>
             (<["generate_search_query" := generate_search_query]> ∅)))))))))).

Definition post (u : string) (b : JVal) : Request :=
  {| method := "POST";
     url := u;
     headers := API_CONFIG.DEFAULT_HEADERS;
     body := Some b;
     timeout := API_CONFIG.TIMEOUT |}.

Definition multimodal_url : string :=
  API_CONFIG.MULTIMODAL_BASE_URL +:+ "/api/v1/chat/multimodal".

Definition chat_url : string :=
  API_CONFIG.MCP_BASE_URL +:+ "/api/v1/chat".

(** The inner [try] block; [None] when it ends without a [return]. *)
Definition try_multimodal (messages : list JVal) (options : JVal)
    : Async (option JVal) :=
  requestBody ← multimodalBody messages options;
  response ← fetch (post multimodal_url requestBody);
  if ok response
  then data ← json_of response; mret (Some data)
  else mret None.

(** The code after the inner [try ... catch]. *)
Definition try_mcp (messages : list JVal) (options : JVal) : Async JVal :=
  requestBody ← historyBody messages options;
  response ← fetch (post chat_url requestBody);
  if negb (ok response)
  then throw (Error ("HTTP error! status: " +:+ show_Z (status response)))
  else json_of response.

(** The outer [catch] block. *)
Definition rethrow (error : JsError) : JsError :=
  if String.eqb (name error) "TimeoutError" || includes (message error) "timeout"
  then Error "요청 시간이 초과되었습니다. 서버가 응답하는데 시간이 오래 걸리고 있습니다. 잠시 후 다시 시도해주세요."
  else Error ("채팅 요청 실패: " +:+ message error).

Definition sendMessage (messages : list JVal) (options : JVal) : Async JVal :=
  try_catch
    (first ← try_catch (try_multimodal messages options)
                       (fun multimodalError => mret None);
     match first with
     | Some data => mret data
     | None => try_mcp messages options
     end)
    (fun error => throw (rethrow error)).

(** The request body of [sendStreamingMessage]. *)
Definition streamingBody (messages : list JVal) (options : JVal) : Async JVal :=
  history ← eval (map_eval history_message messages);
  session_id ← eval (option_or options "session_id" JNull);
  user_id ← eval (option_or options "user_id" JNull);
  department_id ← eval (option_or options "department_id" JNull);
  mret (JObj (<["stream" := JBool true]>
             (<["history" := JArr history]>
             (<["session_id" := session_id]>
             (<["user_id" := user_id]>
             (<["department_id" := department_id]> ∅)))))).

(** [sendStreamingMessage(messages, options = {})]: it resolves to the
    response itself, whose body is the event stream. *)
Definition sendStreamingMessage (messages : list JVal) (options : JVal)
    : Async Response :=
  try_catch
    (requestBody ← streamingBody messages options;
     response ← fetch (post chat_url requestBody);
     if negb (ok response)
     then throw (Error ("HTTP error! status: " +:+ show_Z (status response)))
     else mret response)
    (fun error => throw (Error ("스트리밍 채팅 요청 실패: " +:+ message error))).

Definition multimodal_upload_url : string :=
  API_CONFIG.MULTIMODAL_BASE_URL +:+ "/api/v1/upload/image".

Definition files_upload_url : string :=
  API_CONFIG.MCP_BASE_URL +:+ "/api/v1/files/upload".

(** The form of [uploadFile]: the file, and the user id when it is truthy
    ([userId] is [null] or a string). *)
Definition uploadForm (file : JVal) (userId : option string) : FormData :=
  let formData := form_append [] "file" file in
  match userId with
  | Some u => if String.eqb u "" then formData
              else form_append formData "user_id" (JStr u)
  | None => formData
  end.

(** [uploadFile(file, userId = null)] *)
Definition uploadFile (file : JVal) (userId : option string) : Async JVal :=
  try_catch
    (let formData := uploadForm file userId in
     first ← try_catch
               (response ← fetch (post_form multimodal_upload_url formData
                                    API_CONFIG.TIMEOUT);
                if ok response
                then data ← json_of response; mret (Some data)
                else mret None)
               (fun multimodalError => mret None);
     match first with
     | Some data => mret data
     | None =>
         response ← fetch (post_form files_upload_url formData API_CONFIG.TIMEOUT);
         if negb (ok response)
         then throw (Error ("HTTP error! status: " +:+ show_Z (status response)))
         else json_of response
     end)
    (fun error => throw (Error ("파일 업로드 실패: " +:+ message error))).

End ChatAPI.

(** ** [class HealthAPI] *)

Module HealthAPI.

Definition is_continuation (c : ascii) : bool :=
  let n := nat_of_ascii c in (128 <=? n)%nat && (n <? 192)%nat.

(** The code points of a string, each in its UTF-8 encoding. *)
Fixpoint code_points (s : string) : list string :=
  match s with
  | EmptyString => []
  | String c s' =>
      match code_points s' with
      | String c' w :: ws =>
          if is_continuation c'
          then String c (String c' w) :: ws
          else String c "" :: String c' w :: ws
      | ws => String c "" :: ws
      end
  end.

Definition indexed (l : list JVal) : gmap string JVal :=
  list_to_map (imap (fun i v => (show_Z (Z.of_nat i), v)) l).

(** The own enumerable properties that [...data] copies (a string is
    spread by code point, which is by code unit inside the BMP). *)
Definition spread (data : JVal) : gmap string JVal :=
  match data with
  | JObj m => m
  | JArr l => indexed l
  | JStr s => indexed (List.map JStr (code_points s))
  | _ => ∅
  end.

Definition get_request (u : string) : Request :=
  {| method := "GET";
     url := u;
     headers := [];
     body := None;
     timeout := API_CONFIG.HEALTH_CHECK_TIMEOUT |}.

(** A health status object; [status] reads its [status] property. *)
Definition status_of (h : gmap string JVal) : JVal :=
  default JUndefined (h !! "status").

Definition checkBackendHealth (baseUrl backendName : string)
    : Async (gmap string JVal) :=
  try_catch
    (response ← fetch (get_request (baseUrl +:+ "/health"));
     if ok response then
       data ← json_of response;
       mret (spread data ∪
             (<["status" := JStr "healthy"]>
             (<["backend" := JStr backendName]> ∅)))
     else
       mret (<["status" := JStr "error"]>
            (<["backend" := JStr backendName]>
            (<["message" := JStr (backendName +:+ " backend not responding")]> ∅))))
    (fun error =>
       if includes (message error) "Failed to fetch"
          || includes (message error) "ERR_CONNECTION_REFUSED"
       then
         mret (<["status" := JStr "offline"]>
              (<["backend" := JStr backendName]>
              (<["message" := JStr (backendName +:+ " 서버가 실행되지 않습니다")]> ∅)))
       else if String.eqb (name error) "TimeoutError"
       then
         mret (<["status" := JStr "timeout"]>
              (<["backend" := JStr backendName]>
              (<["message" := JStr (backendName +:+ " 서버 응답 시간 초과")]> ∅)))
       else
         mret (<["status" := JStr "error"]>
              (<["backend" := JStr backendName]>
              (<["message" := JStr (message error)]> ∅)))).

Definition checkMultimodalBackend : Async (gmap string JVal) :=
  mainResult ← checkBackendHealth API_CONFIG.MULTIMODAL_BASE_URL "메인";
  if is_str (status_of mainResult) "healthy"
  then mret mainResult
  else
    testResult ← checkBackendHealth API_CONFIG.TEST_BACKEND_URL "테스트";
    mret (if is_str (status_of testResult) "healthy" then testResult else mainResult).

Definition checkMCPBackend : Async (gmap string JVal) :=
  try_catch
    (response ← fetch (get_request (API_CONFIG.MCP_BASE_URL +:+ "/api/v1/health"));
     if ok response then
       data ← json_of response;
       mret (spread data ∪ (<["status" := JStr "healthy"]> ∅))
     else
       mret (<["status" := JStr "error"]>
            (<["message" := JStr "MCP backend not responding"]> ∅)))
    (fun error =>
       if includes (message error) "Failed to fetch"
       then
         mret (<["status" := JStr "offline"]>
              (<["message" := JStr "백엔드 서버가 실행되지 않습니다"]> ∅))
       else
         mret (<["status" := JStr "error"]>
              (<["message" := JStr (message error)]> ∅))).

End HealthAPI.

(** ** [class ExGPTAPI] *)

Module ExGPTAPI.

(** An instance of the class: the fields the constructor and [setUserInfo] set. *)
Record Client : Type := {
  sessionId : JVal;
  userId : JVal;
  departmentId : JVal
}.

(** The [options] argument of [search]: [page] and [limit] when present,
    and its other properties. *)
Record Options : Type := {
  page : option Z;
  limit : option Z;
  others : gmap string JVal
}.

(** [options = {}] *)
Definition no_options : Options :=
  {| page := None; limit := None; others := ∅ |}.

(** [n || d] for an optional number *)
Definition number_or (n : option Z) (d : Z) : Z :=
  match n with
  | Some v => if v =? 0 then d else v
  | None => d
  end.

Definition number_property (k : string) (n : option Z) : gmap string JVal :=
  match n with
  | Some v => {[ k := ImageSearchAPI.num v ]}
  | None => ∅
  end.

(** The properties [...options] copies. *)
Definition spread_options (o : Options) : gmap string JVal :=
  number_property "page" (page o) ∪ number_property "limit" (limit o) ∪ others o.

Definition imageKeywords : list string :=
  [ "사진"; "이미지"; "그림"; "해무"; "안개"; "cctv"; "카메라";
    "날씨"; "시야"; "가시거리"; "강우"; "강설"; "야간"; "맑음";
    "경부고속도로"; "중부고속도로"; "서해안고속도로" ].

(** What [search] resolves to. *)
Record ChatResult : Type := {
  success : bool;
  type : string;
  response : JVal;
  sources : JVal;
  suggested_questions : JVal;
  metadata : JVal;
  session_id : JVal;
  message_id : JVal
}.

Inductive Result : Type :=
| Images (r : ImageSearchAPI.SearchResult)
| Chat (r : ChatResult).

Section search.
Context `{Runtime}.

Definition hasImageKeyword (query : string) : bool :=
  existsb (fun keyword => includes (toLowerCase query) (toLowerCase keyword))
          imageKeywords.

(** The options [search] gives to [ChatAPI.sendMessage]. *)
Definition chat_options (this : Client) (options : Options) : JVal :=
  JObj (spread_options options ∪
        (<["session_id" := sessionId this]>
        (<["user_id" := userId this]>
        (<["department_id" := departmentId this]> ∅)))).

Definition chat_messages (query : string) : list JVal :=
  [JObj (<["role" := JStr "user"]> (<["content" := JStr query]> ∅))].

Definition chat_result (response : JVal) : Async ChatResult :=
  r_response ← eval (get response "response");
  r_sources ← eval (get response "sources");
  r_suggested ← eval (get response "suggested_questions");
  r_metadata ← eval (get response "metadata");
  r_session ← eval (get response "session_id");
  r_message ← eval (get response "message_id");
  mret {| success := true;
          type := "chat";
          response := r_response;
          sources := r_sources;
          suggested_questions := r_suggested;
          metadata := r_metadata;
          session_id := r_session;
          message_id := r_message |}.

Definition search (this : Client) (query : string) (options : Options)
    : Async Result :=
  try_catch
    (if hasImageKeyword query
     then
       r ← ImageSearchAPI.searchImages query
             (number_or (page options) 1) (number_or (limit options) 20);
       mret (Images r)
     else
       response ← ChatAPI.sendMessage (chat_messages query)
                    (chat_options this options);
       r ← chat_result response;
       mret (Chat r))
    (fun error => throw error).

End search.

(** [generateSessionId()], from [Math.random().toString(36)] and
    [Date.now()]. *)
Definition generateSessionId (random36 : string) (now : Z) : string :=
  "session_" +:+ String.substring 2 9 random36 +:+ "_" +:+ show_Z now.

(** [new ExGPTAPI()] *)
Definition construct (random36 : string) (now : Z) : Client :=
  {| sessionId := JStr (generateSessionId random36 now);
     userId := JNull;
     departmentId := JNull |}.

Definition setUserInfo (this : Client) (userId departmentId : JVal) : Client :=
  {| sessionId := sessionId this;
     userId := userId;
     departmentId := departmentId |}.

(** What [simulateApiCall] resolves to. *)
Record MockResult : Type := {
  mock_success : bool;
  results : JVal;
  total : JVal;
  hasMore : JVal;
  mock_page : Z;
  mock_limit : Z;
  mock_query : string;
  processingTime : JVal
}.

(** [v?.k] *)
Definition get_optional (v : JVal) (k : string) : Completion JVal :=
  match v with
  | JNull | JUndefined => Normal JUndefined
  | _ => get v k
  end.

Section simulateApiCall.
Context `{Runtime}.

(** The conversion of the result of [search]. *)
Definition to_mock (query : string) (page limit : Z) (result : Result)
    : Async MockResult :=
  match result with
  | Chat r =>                                   (* result.type === 'chat' *)
      response_time_ms ← eval (get_optional (metadata r) "response_time_ms");
      mret {| mock_success := true;
              results := JArr [];
              total := ImageSearchAPI.num 0;
              hasMore := JBool false;
              mock_page := page;
              mock_limit := limit;
              mock_query := query;
              processingTime :=
                or_else (divide response_time_ms (ImageSearchAPI.num 1000))
                        (ImageSearchAPI.num 0) |}
  | Images r =>
      mret {| mock_success := true;
              results := or_else (ImageSearchAPI.images r) (JArr []);
              total := or_else (ImageSearchAPI.total_count r) (ImageSearchAPI.num 0);
              hasMore := or_else (ImageSearchAPI.has_more r) (JBool false);
              mock_page := number_or (Some (ImageSearchAPI.page r)) page;
              mock_limit := limit;
              mock_query := query;
              processingTime :=
                or_else (ImageSearchAPI.processing_time r) (ImageSearchAPI.num 0) |}
  end.

(** [simulateApiCall(query, page = 1, limit = 20)]; [random36] and [now]
    are what the constructor of the instance draws. *)
Definition simulateApiCall (random36 : string) (now : Z)
    (query : string) (page limit : Z) : Async MockResult :=
  try_catch
    (let api := construct random36 now in
     result ← search api query
                {| page := Some page; limit := Some limit; others := ∅ |};
     to_mock query page limit result)
    (fun error => throw (Error ("API 호출 실패: " +:+ message error))).

End simulateApiCall.

End ExGPTAPI.

(** ** The history of the [SearchHistory] component *)

Module SearchHistory.

(** The state the operations read and write: the [searchHistory] state
    variable and the ['ex-gpt-search-history'] entry of [localStorage]. *)
Record State : Type := {
  searchHistory : list string;
  saved : list string
}.

(** [useState([])], nothing saved yet. *)
Definition initial : State := {| searchHistory := []; saved := [] |}.

(** [setSearchHistory(h); saveHistory(h)] *)
Definition set_and_save (h : list string) : State :=
  {| searchHistory := h; saved := h |}.

(** [l.filter(item => item !== query)] *)
Definition without (query : string) (l : list string) : list string :=
  List.filter (fun item => negb (String.eqb item query)) l.

Definition addToHistory (st : State) (query : string) : State :=
  if String.eqb (trim query) ""            (* !query.trim() *)
  then st
  else
    let newHistory := firstn 10 (query :: without query (searchHistory st)) in
    set_and_save newHistory.

Definition removeFromHistory (st : State) (query : string) : State :=
  let newHistory := without query (searchHistory st) in
  set_and_save newHistory.

Definition clearHistory (st : State) : State := set_and_save [].

(** The mount effect: the saved history becomes the state. *)
Definition load (st : State) : State :=
  {| searchHistory := saved st; saved := saved st |}.

(** The first render of a session: [useState([])], and in [localStorage]
    the list [stored] that earlier sessions, or anything else, left
    there. *)
Definition mount (stored : list string) : State :=
  {| searchHistory := []; saved := stored |}.

(** The states the component goes through in a session that starts with
    [stored] in [localStorage]. *)
Inductive reachable (stored : list string) : State -> Prop :=
| reach_mount : reachable stored (mount stored)
| reach_load st : reachable stored st -> reachable stored (load st)
| reach_add st query :
    reachable stored st -> reachable stored (addToHistory st query)
| reach_remove st query :
    reachable stored st -> reachable stored (removeFromHistory st query)
| reach_clear st : reachable stored st -> reachable stored (clearHistory st).

(** The favourites: the [favorites] state variable and the
    ['ex-gpt-search-favorites'] entry of [localStorage]. *)
Record Favorites : Type := {
  favorites : list string;
  savedFavorites : list string
}.

Definition no_favorites : Favorites := {| favorites := []; savedFavorites := [] |}.

(** [favorites.includes(query)] *)
Definition is_favorite (query : string) (favs : list string) : bool :=
  existsb (String.eqb query) favs.

Definition toggleFavorite (st : Favorites) (query : string) : Favorites :=
  let newFavorites :=
    if is_favorite query (favorites st)
    then without query (favorites st)
    else firstn 5 (favorites st ++ [query]) in
  {| favorites := newFavorites; savedFavorites := newFavorites |}.

(** The effect on [currentQuery]: [if (currentQuery) addToHistory(currentQuery)]. *)
Definition onCurrentQuery (st : State) (currentQuery : string) : State :=
  if String.eqb currentQuery "" then st else addToHistory st currentQuery.

(** The states of the favourites the component goes through. *)
Inductive reachable_favorites : Favorites -> Prop :=
| reach_none : reachable_favorites no_favorites
| reach_toggle st query :
    reachable_favorites st -> reachable_favorites (toggleFavorite st query).

End SearchHistory.

(** ** [App]: the submit handler *)

Module App.

(** The keyword list of [handleSubmit]. *)
Definition imageKeywords : list string :=
  [ "사진"; "이미지"; "그림"; "해무"; "안개"; "cctv"; "카메라";
    "날씨"; "시야"; "가시거리"; "강우"; "강설"; "야간"; "맑음";
    "경부고속도로"; "중부고속도로"; "서해안고속도로" ].

(** What [handleSubmit] goes on to await. *)
Inductive Submission : Type :=
| Nothing
| SearchImages (query : string)       (* [searchImages(query)] *)
| SendChatMessage (query : string).   (* [sendChatMessage(query)] *)

Section handleSubmit.
Context `{Runtime}.

Definition hasImageKeyword (query : string) : bool :=
  existsb (fun keyword => includes (toLowerCase query) (toLowerCase keyword))
          imageKeywords.

(** [directQuery || inputValue.trim()] *)
Definition submitted_query (directQuery : option string) (inputValue : string)
    : string :=
  match directQuery with
  | Some d => if String.eqb d "" then trim inputValue else d
  | None => trim inputValue
  end.

(** The branch [handleSubmit(e, directQuery = null)] takes. *)
Definition handleSubmit (directQuery : option string) (inputValue : string)
    : Submission :=
  let query := submitted_query directQuery inputValue in
  if String.eqb query "" then Nothing                 (* if (!query) return *)
  else if hasImageKeyword query then SearchImages query
  else SendChatMessage query.

End handleSubmit.

End App.

(** ** Vocabulary of the properties *)

Module Props.

(** [s] contains [t]: [t] occurs in [s] as a contiguous substring. *)
Definition contains (s t : string) : Prop :=
  exists pre post, s = pre +:+ t +:+ post.

(** [query] contains [keyword] when case is ignored. *)
Definition contains_ignoring_case `{Runtime} (query keyword : string) : Prop :=
  contains (toLowerCase query) (toLowerCase keyword).

(** [query] contains at least one keyword of the image-keyword set. *)
Definition has_image_keyword `{Runtime} (query : string) : Prop :=
  exists keyword, In keyword ExGPTAPI.imageKeywords
                  /\ contains_ignoring_case query keyword.

(** The call [ImageSearchAPI.searchImages(query, options.page || 1,
    options.limit || 20)], whose result [search] returns. *)
Definition image_route `{Runtime} (query : string) (options : ExGPTAPI.Options)
    : Async ExGPTAPI.Result :=
  r ← ImageSearchAPI.searchImages query
        (ExGPTAPI.number_or (ExGPTAPI.page options) 1)
        (ExGPTAPI.number_or (ExGPTAPI.limit options) 20);
  mret (ExGPTAPI.Images r).

(** The call [ChatAPI.sendMessage([{ role: 'user', content: query }],
    {...})], whose response [search] wraps. *)
Definition chat_route (this : ExGPTAPI.Client) (query : string)
    (options : ExGPTAPI.Options) : Async ExGPTAPI.Result :=
  response ← ChatAPI.sendMessage (ExGPTAPI.chat_messages query)
               (ExGPTAPI.chat_options this options);
  r ← ExGPTAPI.chat_result response;
  mret (ExGPTAPI.Chat r).

(** [search] dispatches to one API: on every network it runs as the call
    of that API does. *)
Definition dispatches_to_searchImages `{Runtime} (this : ExGPTAPI.Client)
    (query : string) (options : ExGPTAPI.Options) : Prop :=
  forall net, run (ExGPTAPI.search this query options) net
              = run (image_route query options) net.

Definition dispatches_to_sendMessage `{Runtime} (this : ExGPTAPI.Client)
    (query : string) (options : ExGPTAPI.Options) : Prop :=
  forall net, run (ExGPTAPI.search this query options) net
              = run (chat_route this query options) net.

(** The events of [k] consecutive attempts of the request [req]: the
    fetches, with the retry delay between one and the next. *)
Definition attempt_events (req : Request) (k : nat) : list Event :=
  match k with
  | O => []
  | S k' =>
      EFetch req :: concat (replicate k' [ESleep API_CONFIG.RETRY_DELAY; EFetch req])
  end.

Section ImageSearch.
Context `{Runtime}.
Variables (query : string) (page limit : Z).

(** What the [try] block of one attempt against [baseUrl] completes with
    when its [fetch] is answered by [o]. *)
Definition attempt_result (baseUrl : string) (o : FetchOutcome)
    : Completion ImageSearchAPI.SearchResult :=
  fst (ImageSearchAPI.attempt_body query page limit baseUrl (fun _ _ => o) []).

(** The error the [catch] block of an attempt receives, if the attempt
    fails. *)
Definition caught (baseUrl : string) (o : FetchOutcome) : option JsError :=
  match attempt_result baseUrl o with
  | Throw e => Some e
  | Normal _ => None
  end.

End ImageSearch.

(** [m.k] for an object [m] *)
Definition prop (m : gmap string JVal) (k : string) : JVal :=
  default JUndefined (m !! k).

(** The body with a [messages] array: what the multimodal endpoint is
    sent for the message objects [ms] and the options object [o]. *)
Definition messages_entry (msg : gmap string JVal) : JVal :=
  JObj (<["role" := prop msg "role"]>
       (<["content" := prop msg "content"]>
       (<["image_url" := or_else (prop msg "image_url") JNull]> ∅))).

Definition messages_shaped (ms : list (gmap string JVal)) (o : gmap string JVal)
    : JVal :=
  JObj (<["messages" := JArr (List.map messages_entry ms)]>
       (<["session_id" := or_else (prop o "session_id") JNull]>
       (<["user_id" := or_else (prop o "user_id") JNull]>
       (<["temperature" := or_else (prop o "temperature") (JNum (Qmake 7 10))]>
       (<["max_tokens" := or_else (prop o "max_tokens") (JNum (inject_Z 1000))]> ∅))))).

(** The body with a [history] array: what the second endpoint is sent. *)
Definition history_entry (msg : gmap string JVal) : JVal :=
  JObj (<["role" := prop msg "role"]> (<["content" := prop msg "content"]> ∅)).

Definition history_shaped (ms : list (gmap string JVal)) (o : gmap string JVal)
    : JVal :=
  JObj (<["stream" := or_else (prop o "stream") (JBool false)]>
       (<["history" := JArr (List.map history_entry ms)]>
       (<["message_id" := or_else (prop o "message_id") JNull]>
       (<["session_id" := or_else (prop o "session_id") JNull]>
       (<["user_id" := or_else (prop o "user_id") JNull]>
       (<["department_id" := or_else (prop o "department_id") JNull]>
       (<["search_documents" := JBool (not_false (prop o "search_documents"))]>
       (<["suggest_questions" := or_else (prop o "suggest_questions") (JBool false)]>
       (<["generate_search_query" :=
            JBool (not_false (prop o "generate_search_query"))]> ∅))))))))).

(** The first attempt of [sendMessage] succeeds: the response is ok and
    its body is read. *)
Definition multimodal_succeeds (o : FetchOutcome) : bool :=
  match o with
  | Rejected _ => false
  | Resolved r =>
      ok r && match json r with
              | Normal _ => true
              | Throw _ => false
              end
  end.

(** The health status [checkBackendHealth] returns when its [fetch] is
    answered by [o]. *)
Definition probe (baseUrl backendName : string) (o : FetchOutcome)
    : gmap string JVal :=
  match fst (HealthAPI.checkBackendHealth baseUrl backendName (fun _ _ => o) []) with
  | Normal h => h
  | Throw _ => ∅
  end.

(** The rejection of a [fetch] aborted by [AbortSignal.timeout]. *)
Definition timeout_error : JsError :=
  {| name := "TimeoutError"; message := "signal timed out" |}.

(** A network that does not answer within the timeout. *)
Definition timing_out : Network := fun _ _ => Rejected timeout_error.

(** The history is bounded and has no duplicates, in the state variable
    and in the saved copy. *)
Definition bounded_distinct (h : list string) : Prop :=
  (List.length h <= 10)%nat /\ NoDup h.

(** What is said of the history after [addToHistory st query]: at most 10
    entries, the query in front, no duplicates, and the entries past the
    tenth dropped from the old end. *)
Definition capped_with_front (st : SearchHistory.State) (query : string) : Prop :=
  let h := SearchHistory.searchHistory (SearchHistory.addToHistory st query) in
  (List.length h <= 10)%nat
  /\ head h = Some query
  /\ NoDup h
  /\ h = firstn 10 (query :: SearchHistory.without query (SearchHistory.searchHistory st)).

(** What [sendMessage] completes with once it has fallen back to the
    second endpoint, from what that endpoint answers. *)
Definition after_fallback (o : FetchOutcome) : Completion JVal :=
  match o with
  | Rejected e => Throw (ChatAPI.rethrow e)
  | Resolved r =>
      if ok r
      then match json r with
           | Normal data => Normal data
           | Throw e => Throw (ChatAPI.rethrow e)
           end
      else Throw (ChatAPI.rethrow
                    (Error ("HTTP error! status: " +:+ show_Z (status r))))
  end.

(** The body [sendStreamingMessage] sends for the message objects [ms] and
    the options object [o]. *)
Definition streaming_shaped (ms : list (gmap string JVal)) (o : gmap string JVal)
    : JVal :=
  JObj (<["stream" := JBool true]>
       (<["history" := JArr (List.map history_entry ms)]>
       (<["session_id" := or_else (prop o "session_id") JNull]>
       (<["user_id" := or_else (prop o "user_id") JNull]>
       (<["department_id" := or_else (prop o "department_id") JNull]> ∅))))).

(** How an upload ends from what its last request is answered with, the
    failure being wrapped with [prefix]. *)
Definition upload_outcome (prefix : string) (o : FetchOutcome) : Completion JVal :=
  match o with
  | Rejected e => Throw (Error (prefix +:+ message e))
  | Resolved r =>
      if ok r
      then match json r with
           | Normal data => Normal data
           | Throw e => Throw (Error (prefix +:+ message e))
           end
      else Throw (Error (prefix +:+ ("HTTP error! status: " +:+ show_Z (status r))))
  end.

(** The one message [search] sends for [query]. *)
Definition user_message (query : string) : gmap string JVal :=
  <["role" := JStr "user"]> (<["content" := JStr query]> ∅).

(** The options object [search] gives to [sendMessage]. *)
Definition chat_options_object (this : ExGPTAPI.Client) (options : ExGPTAPI.Options)
    : gmap string JVal :=
  ExGPTAPI.spread_options options ∪
  (<["session_id" := ExGPTAPI.sessionId this]>
  (<["user_id" := ExGPTAPI.userId this]>
  (<["department_id" := ExGPTAPI.departmentId this]> ∅))).

(** A chat response body. *)
Definition sample_chat_body : gmap string JVal :=
  <["response" := JStr "안녕하세요"]> (<["session_id" := JStr "s1"]> ∅).

(** An instance as the constructor makes it. *)
Definition sample_client : ExGPTAPI.Client :=
  ExGPTAPI.construct "0.4fzyo82mvyr" 1700000000000.

(** Favourites after three toggles. *)
Definition three_favorites : SearchHistory.Favorites :=
  fold_left SearchHistory.toggleFavorite ["해무"; "안개"; "cctv"]
            SearchHistory.no_favorites.

(** A value that stands for a [File]. *)
Definition sample_file : JVal :=
  JObj (<["name" := JStr "cctv_001.jpg"]> ∅).

(** A runtime to execute examples with: [toLowerCase] restricted to the
    letters of Basic Latin (every other byte is left as it is, which is what
    the engine does for Hangul), and [/] restricted to numbers. *)
Definition lower_ascii (c : ascii) : ascii :=
  let n := nat_of_ascii c in
  if (65 <=? n)%nat && (n <=? 90)%nat then ascii_of_nat (n + 32) else c.

Fixpoint lower_latin (s : string) : string :=
  match s with
  | EmptyString => EmptyString
  | String c s' => String (lower_ascii c) (lower_latin s')
  end.

Definition divide_numbers (a b : JVal) : JVal :=
  match a, b with
  | JNum x, JNum y => JNum (Qdiv x y)
  | _, _ => JUndefined
  end.

Definition example_runtime : Runtime :=
  {| toLowerCase := lower_latin; divide := divide_numbers |}.

(** A network on which nothing listens: every [fetch] is rejected the way
    Chrome rejects a refused connection. *)
Definition unreachable : Network :=
  fun _ _ => Rejected {| name := "TypeError"; message := "Failed to fetch" |}.

(** A network on which every backend answers [status] with the body
    [data]. *)
Definition answering (status : Z) (data : JVal) : Network :=
  fun _ _ => Resolved {| Net.status := status; json := Normal data |}.

(** A search response with one image and no [has_more]. *)
Definition sample_body : gmap string JVal :=
  <["images" := JArr [JStr "cctv_001.jpg"]]>
  (<["total_count" := ImageSearchAPI.num 1]>
  (<["success" := JBool true]> ∅)).

Definition sample_response : Response :=
  {| status := 200; json := Normal (JObj sample_body) |}.

(** A network on which the main backend refuses the connection and the
    test backend answers. *)
Definition main_down : Network :=
  fun _ req =>
    if includes (url req) API_CONFIG.TEST_BACKEND_URL
    then Resolved sample_response
    else Rejected {| name := "TypeError"; message := "Failed to fetch" |}.

(** The property [k] of a response body: [undefined] when the body has
    none. *)
Definition field (data : JVal) (k : string) : JVal :=
  match data with
  | JObj m => default JUndefined (m !! k)
  | _ => JUndefined
  end.

(** An attempt of [searchImages] whose request ends in [o] fails with the
    error [e]: the rejection of [fetch], the error made for a non-ok
    status, the error of reading the body as JSON, or the [TypeError] of
    reading a property of a [null] body. *)
Definition fails_with (o : FetchOutcome) (e : JsError) : Prop :=
  match o with
  | Rejected e' => e = e'
  | Resolved r =>
      if ok r then
        match json r with
        | Throw e' => e = e'
        | Normal JNull => e = cannot_read "null" "success"
        | Normal JUndefined => e = cannot_read "undefined" "success"
        | Normal _ => False
        end
      else e = Error ("HTTP error! status: " +:+ show_Z (status r))
  end.

(** The errors that end the attempts against a URL: the message has
    [Failed to fetch] or [ERR_CONNECTION_REFUSED] in it, or the name is
    [TimeoutError]. *)
Definition connection_or_timeout (e : JsError) : Prop :=
  contains (message e) "Failed to fetch"
  \/ contains (message e) "ERR_CONNECTION_REFUSED"
  \/ name e = "TimeoutError".

(** The rejection Firefox gives when nothing listens. *)
Definition network_error : JsError :=
  {| name := "TypeError";
     message := "NetworkError when attempting to fetch resource." |}.

(** A network on which nothing listens, as Firefox reports it. *)
Definition network_error_everywhere : Network := fun _ _ => Rejected network_error.

(** A stored history with an entry twice. *)
Definition stored_twice : list string := ["a"; "a"].

(** A stored history another session left. *)
Definition stored_earlier : list string := ["해무"; "안개"].

End Props.

(** ** Strings *)

Lemma append_nil (s : string) : "" +:+ s = s.
Proof. reflexivity. Qed.

Lemma append_cons (c : ascii) (s t : string) :
  String c s +:+ t = String c (s +:+ t).
Proof. reflexivity. Qed.

Lemma append_nil_r (s : string) : s +:+ "" = s.
Proof. induction s as [|c s IH]; [reflexivity|]. now rewrite append_cons, IH. Qed.

Lemma prefix_nil (s : string) : String.prefix "" s = true.
Proof. destruct s; reflexivity. Qed.

Lemma prefix_app (t s : string) :
  String.prefix t s = true <-> exists post, s = t +:+ post.
Proof.
  revert s; induction t as [|c t IH]; intros s.
  - rewrite prefix_nil. split; [exists s; reflexivity | reflexivity].
  - destruct s as [|d s]; cbn [String.prefix].
    + split; [discriminate | intros [post Hp]; discriminate].
    + destruct (ascii_dec c d) as [->|Hne].
      * rewrite IH. split; intros [post Hp]; exists post;
          rewrite append_cons in *; congruence.
      * split; [discriminate |].
        intros [post Hp]. rewrite append_cons in Hp. congruence.
Qed.

Lemma includes_contains (s t : string) :
  includes s t = true <-> Props.contains s t.
Proof.
  unfold Props.contains. induction s as [|c s IH].
  - cbn [includes]. rewrite orb_false_r, prefix_app. split.
    + intros [post Hp]. exists "", post. exact Hp.
    + intros [[|d pre] [post Hp]].
      * exists post. exact Hp.
      * discriminate.
  - cbn [includes]. rewrite orb_true_iff, prefix_app, IH. split.
    + intros [[post Hp] | (pre & post & Hp)].
      * exists "", post. exact Hp.
      * exists (String c pre), post. rewrite append_cons. congruence.
    + intros [[|d pre] [post Hp]].
      * left. exists post. exact Hp.
      * right. exists pre, post. rewrite append_cons in Hp. congruence.
Qed.

Lemma includes_app_r (s t : string) : includes (s +:+ t) t = true.
Proof.
  apply includes_contains. exists s, "". now rewrite append_nil_r.
Qed.

Lemma includes_empty (s : string) : includes s "" = true.
Proof. destruct s; reflexivity. Qed.

(** ** The [async] monad *)

Lemma bind_run {A B} (m : Async A) (k : A -> Async B) net tr :
  (m ≫= k) net tr =
  match m net tr with
  | (Normal a, tr') => k a net tr'
  | (Throw e, tr') => (Throw e, tr')
  end.
Proof. reflexivity. Qed.

Lemma eval_bind_run {A B} (c : Completion A) (k : A -> Async B) net tr :
  (eval c ≫= k) net tr =
  match c with
  | Normal a => k a net tr
  | Throw e => (Throw e, tr)
  end.
Proof. rewrite bind_run. unfold eval. destruct c; reflexivity. Qed.

Lemma fetch_run (req : Request) net tr :
  fetch req net tr =
  (match net (List.length tr) req with
   | Rejected e => Throw e
   | Resolved r => Normal r
   end, tr ++ [EFetch req]).
Proof. reflexivity. Qed.


Lemma bind_ret_trace {A B} (m : Async A) (f : A -> B) net tr :
  snd ((m ≫= (fun a => mret (f a))) net tr) = snd (m net tr).
Proof. rewrite bind_run. destruct (m net tr) as [[a|e] tr']; reflexivity. Qed.

(** ** Numbers *)

(** Up to [2^53] in absolute value an integer is a double. *)
Lemma round_double_exact (z : Z) : Z.abs z <= 2 ^ 53 -> round_double z = z.
Proof.
  intros Hz. unfold round_double. cbn zeta.
  destruct (Z.leb_spec (Z.log2 (Z.abs z) - 52) 0) as [_|Hbig]; [reflexivity|].
  assert (Hpos : 0 < Z.abs z).
  { destruct (Z.eq_dec (Z.abs z) 0) as [H0|H0]; [rewrite H0 in Hbig; cbn in Hbig; lia|].
    pose proof (Z.abs_nonneg z). lia. }
  pose proof (Z.log2_spec (Z.abs z) Hpos) as [Hlow _].
  assert (Hpow : 2 ^ 53 <= 2 ^ Z.log2 (Z.abs z)) by (apply Z.pow_le_mono_r; lia).
  change (2 ^ 53) with 9007199254740992 in *.
  assert (Hcases : z = 9007199254740992 \/ z = - 9007199254740992) by lia.
  destruct Hcases as [-> | ->]; vm_compute; reflexivity.
Qed.

Lemma double_of_exact (z : Z) : Z.abs z <= 2 ^ 53 -> double_of z = JNum (inject_Z z).
Proof.
  intros Hz. unfold double_of. cbn zeta. rewrite (round_double_exact z Hz).
  destruct (Z.ltb_spec (Z.abs z) (2 ^ 1024)) as [_|Hover]; [reflexivity|].
  assert (2 ^ 53 < 2 ^ 1024) by (apply Z.pow_lt_mono_r; lia). lia.
Qed.

(** The offset is the exact product when that is at most [2^53] in
    absolute value. *)
Lemma offset_exact (page limit : Z) :
  Z.abs ((page - 1) * limit) <= 2 ^ 53 ->
  ImageSearchAPI.offset page limit = ImageSearchAPI.num ((page - 1) * limit).
Proof.
  intros Hz. unfold ImageSearchAPI.offset, ImageSearchAPI.num.
  destruct (Z.eq_dec limit 0) as [->|Hl].
  - rewrite !Z.mul_0_r. reflexivity.
  - assert (Hp : Z.abs (page - 1) <= 2 ^ 53).
    { rewrite Z.abs_mul in Hz. change (2 ^ 53) with 9007199254740992 in *.
      assert (1 <= Z.abs limit) by lia. pose proof (Z.abs_nonneg (page - 1)). nia. }
    rewrite (round_double_exact _ Hp). now apply double_of_exact.
Qed.
(** ** [ImageSearchAPI.searchImages] *)

Section ImageSearchFacts.
Context `{Runtime}.
Variables (query : string) (page limit : Z).

Local Abbreviation request b := (ImageSearchAPI.request b query page limit).
Local Abbreviation attempt_body := (ImageSearchAPI.attempt_body query page limit).
Local Abbreviation attempts := (ImageSearchAPI.attempts query page limit).
Local Abbreviation attempt_result := (Props.attempt_result query page limit).
Local Abbreviation caught := (Props.caught query page limit).

(** The continuation of [attempt_body] after [fetch] leaves the trace as
    it is. *)
Lemma attempt_body_run (b : string) net tr :
  attempt_body b net tr =
  (attempt_result b (net (List.length tr) (request b)), tr ++ [EFetch (request b)]).
Proof.
  unfold Props.attempt_result, ImageSearchAPI.attempt_body.
  rewrite !bind_run, !fetch_run. cbn [List.length].
  destruct (net (List.length tr) (request b)) as [e|r]; [reflexivity|].
  destruct (negb (ok r)); [reflexivity|].
  unfold json_of. rewrite !eval_bind_run.
  destruct (json r) as [data|e]; [|reflexivity].
  repeat (rewrite !eval_bind_run;
          match goal with
          | |- context [get ?d ?k] => destruct (get d k); [|reflexivity]
          end).
  reflexivity.
Qed.

Lemma caught_rejected (b : string) (e : JsError) : caught b (Rejected e) = Some e.
Proof. reflexivity. Qed.

Lemma caught_http_error (b : string) (r : Response) :
  ok r = false ->
  caught b (Resolved r) = Some (Error ("HTTP error! status: " +:+ show_Z (status r))).
Proof.
  intros Hok. unfold Props.caught, Props.attempt_result, ImageSearchAPI.attempt_body.
  rewrite bind_run, fetch_run. now rewrite Hok.
Qed.

Lemma attempt_events_length (req : Request) (k : nat) :
  List.length (Props.attempt_events req k) = (2 * k - 1)%nat.
Proof.
  destruct k as [|k]; [reflexivity|]. cbn [Props.attempt_events List.length].
  induction k as [|k IH]; [reflexivity|].
  cbn [replicate concat app List.length] in *. lia.
Qed.

Lemma attempt_events_more (req : Request) (k : nat) :
  Props.attempt_events req (S (S k)) =
  [EFetch req; ESleep API_CONFIG.RETRY_DELAY] ++ Props.attempt_events req (S k).
Proof. reflexivity. Qed.

(** Where the fetches of a run of attempts are: at the even positions. *)
Lemma attempt_events_fetch (req : Request) (k j : nat) (r' : Request) :
  Props.attempt_events req k !! j = Some (EFetch r') ->
  r' = req /\ exists i, j = (2 * i)%nat /\ (i < k)%nat.
Proof.
  revert j. induction k as [|k IH]; intros j Hj; [discriminate|].
  destruct k as [|k].
  - destruct j as [|j]; [|destruct j; discriminate].
    injection Hj as ->. split; [reflexivity|]. exists 0%nat. lia.
  - rewrite attempt_events_more in Hj.
    destruct j as [|[|j]]; cbn [app lookup list_lookup] in Hj.
    + injection Hj as ->. split; [reflexivity|]. exists 0%nat. lia.
    + discriminate.
    + destruct (IH j Hj) as [-> (i & -> & Hi)]. split; [reflexivity|].
      exists (S i). lia.
Qed.

Lemma attempt_events_even (req : Request) (k i : nat) :
  (i < k)%nat -> Props.attempt_events req k !! (2 * i)%nat = Some (EFetch req).
Proof.
  revert i. induction k as [|k IH]; intros i Hi; [lia|].
  destruct i as [|i]; [reflexivity|].
  destruct k as [|k]; [lia|]. rewrite attempt_events_more.
  replace (2 * S i)%nat with (S (S (2 * i))) by lia.
  cbn [app lookup list_lookup]. apply IH. lia.
Qed.

(** The fetches of two runs of attempts, one after the other. *)
Lemma two_runs_fetch (reqp reqs : Request) (k1 k2 j : nat) (req : Request) :
  (1 <= k1)%nat ->
  (Props.attempt_events reqp k1 ++ Props.attempt_events reqs k2) !! j
    = Some (EFetch req) ->
  (req = reqp /\ exists i, j = (2 * i)%nat /\ (i < k1)%nat)
  \/ (req = reqs /\ exists i, j = (2 * k1 - 1 + 2 * i)%nat /\ (i < k2)%nat).
Proof.
  intros Hk1 Hj. apply lookup_app_Some in Hj as [Hj | [Hlen Hj]].
  - left. now apply attempt_events_fetch in Hj.
  - right. rewrite attempt_events_length in Hlen, Hj.
    apply attempt_events_fetch in Hj as [-> (i & Hi & Hlt)].
    split; [reflexivity|]. exists i. lia.
Qed.

(** The retry loop against one URL, entered at [attempt] with the
    iterations that are left: it makes [k] attempts, of which all but the
    last fail with an error that is not a connection failure; the last one
    returns, or fails and ends the loop. *)
Lemma attempts_run (b : string) (fuel : nat) :
  forall (attempt : nat) (lastError : option JsError) net tr,
    (attempt + fuel = S API_CONFIG.RETRY_COUNT)%nat -> (0 < fuel)%nat ->
    exists (k : nat) (x : ImageSearchAPI.LoopExit),
      (1 <= k <= fuel)%nat
      /\ attempts b fuel attempt lastError net tr
         = (Normal x, tr ++ Props.attempt_events (request b) k)
      /\ (forall i, (i < k - 1)%nat ->
            exists e, caught b (net (List.length tr + 2 * i)%nat (request b)) = Some e
                      /\ ImageSearchAPI.connection_failure e = false)
      /\ match attempt_result b (net (List.length tr + 2 * (k - 1))%nat (request b)) with
         | Normal r => x = ImageSearchAPI.Return r
         | Throw e =>
             x = ImageSearchAPI.Done (Some e)
             /\ (ImageSearchAPI.connection_failure e = true \/ k = fuel)
         end.
Proof.
  induction fuel as [|fuel IH]; intros attempt lastError net tr Hsum Hpos; [lia|].
  cbn [ImageSearchAPI.attempts].
  destruct (Nat.leb_spec attempt API_CONFIG.RETRY_COUNT) as [Hle|Hgt]; [|lia].
  unfold try_catch at 1. rewrite bind_run, attempt_body_run.
  destruct (attempt_result b (net (List.length tr) (request b))) as [r|e] eqn:Hres.
  - (* the attempt returns *)
    exists 1%nat, (ImageSearchAPI.Return r).
    split; [lia|]. split; [reflexivity|]. split.
    + intros i Hi. lia.
    + replace (List.length tr + 2 * (1 - 1))%nat with (List.length tr) by lia.
      now rewrite Hres.
  - destruct (ImageSearchAPI.connection_failure e) eqn:Hconn.
    + (* break *)
      exists 1%nat, (ImageSearchAPI.Done (Some e)).
      split; [lia|]. split; [reflexivity|]. split.
      * intros i Hi. lia.
      * replace (List.length tr + 2 * (1 - 1))%nat with (List.length tr) by lia.
        rewrite Hres. split; [reflexivity | now left].
    + rewrite bind_run.
      destruct (Nat.ltb_spec attempt API_CONFIG.RETRY_COUNT) as [Hlt|Hge].
      * (* wait, then try again *)
        cbn [sleep]. unfold sleep.
        destruct (IH (S attempt) (Some e) net
                     ((tr ++ [EFetch (request b)]) ++ [ESleep API_CONFIG.RETRY_DELAY]))
          as (k & x & Hk & Hrun & Hbefore & Hlast); [lia | lia |].
        exists (S k), x. split; [lia|]. split; [|split].
        -- rewrite Hrun. destruct k as [|k]; [lia|].
           rewrite attempt_events_more, <- !app_assoc. reflexivity.
        -- intros i Hi. destruct i as [|i].
           ++ exists e. replace (List.length tr + 2 * 0)%nat with (List.length tr) by lia.
              unfold Props.caught. now rewrite Hres.
           ++ destruct (Hbefore i) as (e' & He' & Hc'); [lia|]. exists e'.
              rewrite !length_app in He'. cbn [List.length] in He'.
              replace (List.length tr + 2 * S i)%nat
                with (List.length tr + 1 + 1 + 2 * i)%nat by lia.
              now split.
        -- rewrite !length_app in Hlast. cbn [List.length] in Hlast.
           replace (List.length tr + 2 * (S k - 1))%nat
             with (List.length tr + 1 + 1 + 2 * (k - 1))%nat by lia.
           destruct (attempt_result b
                       (net (List.length tr + 1 + 1 + 2 * (k - 1))%nat (request b)));
             [exact Hlast|].
           destruct Hlast as [-> [Hc|Hk']]; (split; [reflexivity|]);
             [now left | right; lia].
      * (* the last attempt: the loop ends *)
        assert (fuel = 0%nat) as -> by lia.
        exists 1%nat, (ImageSearchAPI.Done (Some e)).
        split; [lia|]. split; [reflexivity|]. split.
        -- intros i Hi. lia.
        -- replace (List.length tr + 2 * (1 - 1))%nat with (List.length tr) by lia.
           rewrite Hres. split; [reflexivity | now right].
Qed.

Local Abbreviation searchImages := (ImageSearchAPI.searchImages query page limit).
Local Abbreviation primary := API_CONFIG.MULTIMODAL_BASE_URL.
Local Abbreviation secondary := API_CONFIG.TEST_BACKEND_URL.

(** The whole run: [k1] attempts against the primary URL, then [k2] against
    the secondary one. *)
Lemma searchImages_run net :
  exists k1 k2 : nat,
    snd (run searchImages net)
      = Props.attempt_events (request primary) k1
        ++ Props.attempt_events (request secondary) k2
    /\ (1 <= k1 <= S API_CONFIG.RETRY_COUNT)%nat
    /\ (k2 <= S API_CONFIG.RETRY_COUNT)%nat
    /\ (forall i, (i < k1 - 1)%nat ->
          exists e, caught primary (net (2 * i)%nat (request primary)) = Some e
                    /\ ImageSearchAPI.connection_failure e = false)
    /\ (forall i, (i < k2 - 1)%nat ->
          exists e, caught secondary (net (2 * k1 - 1 + 2 * i)%nat (request secondary)) = Some e
                    /\ ImageSearchAPI.connection_failure e = false)
    /\ match attempt_result primary (net (2 * (k1 - 1))%nat (request primary)) with
       | Normal r => fst (run searchImages net) = Normal r /\ k2 = 0%nat
       | Throw e1 =>
           (ImageSearchAPI.connection_failure e1 = true \/ k1 = S API_CONFIG.RETRY_COUNT)
           /\ (1 <= k2)%nat
           /\ match attempt_result secondary
                      (net (2 * k1 - 1 + 2 * (k2 - 1))%nat (request secondary)) with
              | Normal r => fst (run searchImages net) = Normal r
              | Throw e2 =>
                  (ImageSearchAPI.connection_failure e2 = true
                   \/ k2 = S API_CONFIG.RETRY_COUNT)
                  /\ fst (run searchImages net)
                     = Throw (Error ("이미지 검색 실패: "
                                     +:+ ImageSearchAPI.failure_detail (Some e2)))
              end
       end.
Proof.
  unfold run, ImageSearchAPI.searchImages, ImageSearchAPI.backendUrls.
  cbn [ImageSearchAPI.backends]. rewrite !bind_run.
  destruct (attempts_run primary (S API_CONFIG.RETRY_COUNT) 0 None net [])
    as (k1 & x1 & Hk1 & Hrun1 & Hbefore1 & Hlast1); [lia | lia |].
  rewrite Hrun1. cbn [app List.length Nat.add] in *.
  destruct (attempt_result primary (net (2 * (k1 - 1))%nat (request primary)))
    as [r|e1] eqn:Hres1.
  - subst x1. exists k1, 0%nat. cbn [Props.attempt_events]. rewrite app_nil_r.
    split; [reflexivity|]. split; [lia|]. split; [lia|]. split; [exact Hbefore1|].
    split; [intros i Hi; lia|]. rewrite Hres1. now split.
  - destruct Hlast1 as [-> Hwhy1]. rewrite !bind_run.
    destruct (attempts_run secondary (S API_CONFIG.RETRY_COUNT) 0 (Some e1) net
                (Props.attempt_events (request primary) k1))
      as (k2 & x2 & Hk2 & Hrun2 & Hbefore2 & Hlast2); [lia | lia |].
    rewrite Hrun2. rewrite attempt_events_length in Hbefore2, Hlast2.
    exists k1, k2.
    split; [ destruct x2; reflexivity |]. split; [lia|]. split; [lia|].
    split; [exact Hbefore1|]. split; [exact Hbefore2|].
    rewrite Hres1. split; [exact Hwhy1|]. split; [lia|].
    destruct (attempt_result secondary
                (net (2 * k1 - 1 + 2 * (k2 - 1))%nat (request secondary))) as [r|e2].
    + now subst x2.
    + destruct Hlast2 as [-> Hwhy2]. now split.
Qed.

(** What the [catch] block takes for a connection failure: the rejection
    Chrome gives for a refused connection or an unreachable host, and the
    abort by the timeout signal; not the error of a non-ok status. *)
Example connection_failure_examples :
  ImageSearchAPI.connection_failure {| name := "TypeError"; message := "Failed to fetch" |}
  = true
  /\ ImageSearchAPI.connection_failure
       {| name := "TypeError";
          message := "net::ERR_CONNECTION_REFUSED" |} = true
  /\ ImageSearchAPI.connection_failure Props.timeout_error = true
  /\ ImageSearchAPI.connection_failure (Error "HTTP error! status: 500") = false.
Proof. repeat split; reflexivity. Qed.

(** What an attempt returns from an ok response whose body is JSON other
    than [null]. *)
Lemma attempt_result_ok (b : string) (r : Response) (data : JVal) :
  ok r = true -> json r = Normal data -> data <> JNull -> data <> JUndefined ->
  attempt_result b (Resolved r)
  = Normal (ImageSearchAPI.mkSearchResult
              (not_false (Props.field data "success"))
              (ImageSearchAPI.backendType b)
              (or_else (Props.field data "images") (JArr []))
              (or_else (Props.field data "total_count") (ImageSearchAPI.num 0))
              (or_else (Props.field data "has_more") (JBool false))
              page
              (if truthy (Props.field data "search_time_ms")
               then divide (Props.field data "search_time_ms")
                           (ImageSearchAPI.num 1000)
               else ImageSearchAPI.num 0)
              (or_else (Props.field data "query") (JStr query))).
Proof.
  intros Hok Hjson Hnull Hundef.
  unfold Props.attempt_result, ImageSearchAPI.attempt_body.
  rewrite bind_run, fetch_run, Hok. cbn [negb].
  unfold json_of. rewrite Hjson.
  destruct data; try contradiction; reflexivity.
Qed.

(** An ok response whose body cannot be read as JSON, or is [null], makes
    the attempt fail. *)
Lemma caught_unreadable_body (b : string) (r : Response) (e : JsError) :
  ok r = true -> json r = Throw e -> caught b (Resolved r) = Some e.
Proof.
  intros Hok Hjson. unfold Props.caught, Props.attempt_result, ImageSearchAPI.attempt_body.
  rewrite bind_run, fetch_run, Hok. cbn [negb].
  unfold json_of. rewrite Hjson. reflexivity.
Qed.

Lemma caught_null_body (b : string) (r : Response) :
  ok r = true -> json r = Normal JNull ->
  caught b (Resolved r) = Some (cannot_read "null" "success").
Proof.
  intros Hok Hjson. unfold Props.caught, Props.attempt_result, ImageSearchAPI.attempt_body.
  rewrite bind_run, fetch_run, Hok. cbn [negb].
  unfold json_of. rewrite Hjson. reflexivity.
Qed.

Lemma caught_undefined_body (b : string) (r : Response) :
  ok r = true -> json r = Normal JUndefined ->
  caught b (Resolved r) = Some (cannot_read "undefined" "success").
Proof.
  intros Hok Hjson. unfold Props.caught, Props.attempt_result, ImageSearchAPI.attempt_body.
  rewrite bind_run, fetch_run, Hok. cbn [negb].
  unfold json_of. rewrite Hjson. reflexivity.
Qed.

(** The [catch] block of an attempt receives exactly the error the attempt
    fails with. *)
Lemma fails_with_caught (b : string) (o : FetchOutcome) (e : JsError) :
  Props.fails_with o e <-> caught b o = Some e.
Proof.
  destruct o as [e'|r]; cbn [Props.fails_with].
  - rewrite caught_rejected. split; [now intros -> | now intros [= ->]].
  - destruct (ok r) eqn:Hok.
    + destruct (json r) as [data|e'] eqn:Hjson.
      * destruct data;
          try (rewrite (caught_null_body b r Hok Hjson);
               split; [now intros -> | now intros [= ->]]);
          try (rewrite (caught_undefined_body b r Hok Hjson);
               split; [now intros -> | now intros [= ->]]).
        all: unfold Props.caught;
          erewrite (attempt_result_ok b r _ Hok Hjson) by discriminate;
          split; [contradiction | discriminate].
      * rewrite (caught_unreadable_body b r e' Hok Hjson).
        split; [now intros -> | now intros [= ->]].
    + rewrite caught_http_error by exact Hok.
      split; [now intros -> | now intros [= ->]].
Qed.

(** The test of the [catch] block is the test for the three wordings. *)
Lemma connection_failure_spec (e : JsError) :
  ImageSearchAPI.connection_failure e = true <-> Props.connection_or_timeout e.
Proof.
  unfold ImageSearchAPI.connection_failure, Props.connection_or_timeout.
  rewrite !orb_true_iff, !includes_contains, String.eqb_eq. tauto.
Qed.


(** C2. If every attempt against both backend URLs fails, [searchImages]
    throws (it does not return a result): the error is an [Error] whose
    message is the fixed prefix followed by the message of the last error
    caught (by a fixed text when that message is empty), so it includes
    the last error's message.  The last error is the one of the last
    attempt of the run, which is against the secondary URL. *)
Theorem searchImages_all_fail net :
  (forall n b, In b ImageSearchAPI.backendUrls ->
               caught b (net n (request b)) <> None) ->
  exists (err lastError : JsError) (n : nat),
    fst (run searchImages net) = Throw err
    /\ S n = List.length (snd (run searchImages net))
    /\ snd (run searchImages net) !! n = Some (EFetch (request secondary))
    /\ caught secondary (net n (request secondary)) = Some lastError
    /\ name err = "Error"
    /\ message err
       = "이미지 검색 실패: "
         +:+ (if String.eqb (message lastError) "" then "알 수 없는 오류"
              else message lastError)
    /\ includes (message err) (message lastError) = true.
Proof.
  intros Hfail.
  destruct (searchImages_run net)
    as (k1 & k2 & Htr & Hk1 & Hk2 & Hbefore1 & Hbefore2 & Hlast).
  pose proof (Hfail (2 * (k1 - 1))%nat primary) as Hp.
  pose proof (Hfail (2 * k1 - 1 + 2 * (k2 - 1))%nat secondary) as Hs.
  unfold Props.caught in Hp, Hs |- *.
  destruct (attempt_result primary (net (2 * (k1 - 1))%nat (request primary)))
    as [r|e1]; [exfalso; apply Hp; [now left | reflexivity]|].
  destruct Hlast as (_ & Hk2' & Hlast).
  destruct (attempt_result secondary
              (net (2 * k1 - 1 + 2 * (k2 - 1))%nat (request secondary)))
    as [r|e2] eqn:Hres2; [exfalso; apply Hs; [right; now left | reflexivity]|].
  destruct Hlast as [_ Hthrow].
  exists (Error ("이미지 검색 실패: " +:+ ImageSearchAPI.failure_detail (Some e2))),
         e2, (2 * k1 - 1 + 2 * (k2 - 1))%nat.
  split; [exact Hthrow|]. rewrite Htr.
  split; [rewrite length_app, !attempt_events_length; lia|].
  split.
  { rewrite lookup_app_r; rewrite attempt_events_length; [|lia].
    replace (2 * k1 - 1 + 2 * (k2 - 1) - (2 * k1 - 1))%nat with (2 * (k2 - 1))%nat by lia.
    apply attempt_events_even. lia. }
  split; [now rewrite Hres2|]. split; [reflexivity|]. split; [reflexivity|].
  cbn [message Error ImageSearchAPI.failure_detail].
  destruct (String.eqb_spec (message e2) "") as [->|_].
  - apply includes_empty.
  - apply includes_app_r.
Qed.

(** The error thrown for a non-ok response is never taken for a connection
    failure, whatever the status code. *)
Lemma http_error_not_connection_failure (s : Z) :
  100 <= s <= 599 ->
  ImageSearchAPI.connection_failure (Error ("HTTP error! status: " +:+ show_Z s)) = false.
Proof.
  intros Hs.
  assert (Hall : forallb
            (fun n => negb (ImageSearchAPI.connection_failure
                              (Error ("HTTP error! status: " +:+ show_Z (Z.of_nat n)))))
            (seq 100 500) = true) by (vm_compute; reflexivity).
  rewrite forallb_forall in Hall.
  specialize (Hall (Z.to_nat s)). rewrite Z2Nat.id in Hall by lia.
  apply negb_true_iff, Hall, in_seq. lia.
Qed.




(** An attempt that returns is the end of the run, which returns its
    result. *)
Lemma searchImages_returns net (j : nat) (b : string)
    (res : ImageSearchAPI.SearchResult) :
  In b ImageSearchAPI.backendUrls ->
  snd (run searchImages net) !! j = Some (EFetch (request b)) ->
  attempt_result b (net j (request b)) = Normal res ->
  fst (run searchImages net) = Normal res.
Proof.
  intros Hb Hj Hres.
  destruct (searchImages_run net)
    as (k1 & k2 & Htr & Hk1 & Hk2 & Hbefore1 & Hbefore2 & Hlast).
  rewrite Htr in Hj.
  assert (Hne : request primary <> request secondary) by (intros Heq; discriminate Heq).
  apply two_runs_fetch in Hj; [|lia].
  destruct Hb as [<- | [<- | []]].
  - destruct Hj as [[_ (i & -> & Hi)] | [Heq _]]; [|contradiction].
    destruct (Nat.eq_dec i (k1 - 1)%nat) as [->|Hni].
    + rewrite Hres in Hlast. apply Hlast.
    + destruct (Hbefore1 i) as (e' & He' & _); [lia|].
      unfold Props.caught in He'. rewrite Hres in He'. discriminate.
  - destruct Hj as [[Heq _] | [_ (i & -> & Hi)]]; [congruence|].
    destruct (Nat.eq_dec i (k2 - 1)%nat) as [->|Hni].
    + rewrite Hres in Hlast.
      destruct (attempt_result primary (net (2 * (k1 - 1))%nat (request primary)));
        [lia|]. apply Hlast.
    + destruct (Hbefore2 i) as (e' & He' & _); [lia|].
      unfold Props.caught in He'. rewrite Hres in He'. discriminate.
Qed.

(** The record returned for an ok response whose body is JSON other than
    [null]. *)
Lemma searchImages_record net (j : nat) (b : string) (r : Response) (data : JVal) :
  In b ImageSearchAPI.backendUrls ->
  snd (run searchImages net) !! j = Some (EFetch (request b)) ->
  net j (request b) = Resolved r ->
  ok r = true ->
  json r = Normal data -> data <> JNull -> data <> JUndefined ->
  exists res : ImageSearchAPI.SearchResult,
    fst (run searchImages net) = Normal res
    /\ ImageSearchAPI.images res = or_else (Props.field data "images") (JArr [])
    /\ (Props.field data "images" = JUndefined -> ImageSearchAPI.images res = JArr [])
    /\ ImageSearchAPI.total_count res
       = or_else (Props.field data "total_count") (ImageSearchAPI.num 0)
    /\ (Props.field data "total_count" = JUndefined ->
        ImageSearchAPI.total_count res = ImageSearchAPI.num 0)
    /\ ImageSearchAPI.has_more res
       = or_else (Props.field data "has_more") (JBool false)
    /\ (Props.field data "has_more" = JUndefined ->
        ImageSearchAPI.has_more res = JBool false)
    /\ ImageSearchAPI.page res = page
    /\ (ImageSearchAPI.success res = false
        <-> Props.field data "success" = JBool false).
Proof.
  intros Hb Hj Hnet Hok Hjson Hnull Hundef.
  pose proof (attempt_result_ok b r data Hok Hjson Hnull Hundef) as Hres.
  rewrite <- Hnet in Hres.
  eexists. split; [exact (searchImages_returns net j b _ Hb Hj Hres)|].
  cbn [ImageSearchAPI.images ImageSearchAPI.total_count ImageSearchAPI.has_more
       ImageSearchAPI.page ImageSearchAPI.success].
  split; [reflexivity|]. split; [now intros ->|].
  split; [reflexivity|]. split; [now intros ->|].
  split; [reflexivity|]. split; [now intros ->|].
  split; [reflexivity|].
  destruct (Props.field data "success") as [| |[|]| | | | |]; cbn [not_false].
  all: split; intros Heq; try reflexivity; try discriminate Heq.
Qed.

(** C8, as amended.  When an attempt of the run receives an HTTP ok
    response whose body is read as JSON other than [null], [searchImages]
    returns a record in which [images] is the body's [images], or the empty
    array when that is absent (or falsy); [total_count] defaults to 0 and
    [has_more] to false in the same way; [page] is the page argument; and
    [success] is false exactly when the body's [success] is the boolean
    false.  An ok response whose body cannot be read as JSON, or is
    [null], gives no record: the attempt fails, with the error of the
    reading or with the [TypeError] of reading [success] from [null]. *)
Theorem searchImages_normalizes net (j : nat) (b : string) (r : Response) :
  In b ImageSearchAPI.backendUrls ->
  snd (run searchImages net) !! j = Some (EFetch (request b)) ->
  net j (request b) = Resolved r ->
  ok r = true ->
  match json r with
  | Throw e => caught b (Resolved r) = Some e
  | Normal JNull => caught b (Resolved r) = Some (cannot_read "null" "success")
  | Normal JUndefined =>
      caught b (Resolved r) = Some (cannot_read "undefined" "success")
  | Normal data =>
      exists res : ImageSearchAPI.SearchResult,
        fst (run searchImages net) = Normal res
        /\ ImageSearchAPI.images res = or_else (Props.field data "images") (JArr [])
        /\ (Props.field data "images" = JUndefined ->
            ImageSearchAPI.images res = JArr [])
        /\ ImageSearchAPI.total_count res
           = or_else (Props.field data "total_count") (ImageSearchAPI.num 0)
        /\ (Props.field data "total_count" = JUndefined ->
            ImageSearchAPI.total_count res = ImageSearchAPI.num 0)
        /\ ImageSearchAPI.has_more res
           = or_else (Props.field data "has_more") (JBool false)
        /\ (Props.field data "has_more" = JUndefined ->
            ImageSearchAPI.has_more res = JBool false)
        /\ ImageSearchAPI.page res = page
        /\ (ImageSearchAPI.success res = false
            <-> Props.field data "success" = JBool false)
  end.
Proof.
  intros Hb Hj Hnet Hok.
  destruct (json r) as [data|e] eqn:Hjson.
  - destruct data;
      try (now apply caught_null_body); try (now apply caught_undefined_body);
      apply (searchImages_record net j b r _ Hb Hj Hnet Hok Hjson); discriminate.
  - now apply caught_unreadable_body.
Qed.

End ImageSearchFacts.

(** *** Instances of the statements above *)

Lemma searchImages_all_fail_witness :
  (forall n b, In b ImageSearchAPI.backendUrls ->
     Props.caught (H := Props.example_runtime) "해무" 1 20 b
       (Props.unreachable n (ImageSearchAPI.request b "해무" 1 20)) <> None)
  /\ exists (err lastError : JsError) (n : nat),
      fst (run (ImageSearchAPI.searchImages (H := Props.example_runtime) "해무" 1 20)
               Props.unreachable) = Throw err
      /\ S n = List.length
                 (snd (run (ImageSearchAPI.searchImages (H := Props.example_runtime)
                              "해무" 1 20) Props.unreachable))
      /\ snd (run (ImageSearchAPI.searchImages (H := Props.example_runtime) "해무" 1 20)
                  Props.unreachable) !! n
         = Some (EFetch (ImageSearchAPI.request API_CONFIG.TEST_BACKEND_URL "해무" 1 20))
      /\ Props.caught (H := Props.example_runtime) "해무" 1 20 API_CONFIG.TEST_BACKEND_URL
           (Props.unreachable n
              (ImageSearchAPI.request API_CONFIG.TEST_BACKEND_URL "해무" 1 20))
         = Some lastError
      /\ name err = "Error"
      /\ message err
         = "이미지 검색 실패: "
           +:+ (if String.eqb (message lastError) "" then "알 수 없는 오류"
                else message lastError)
      /\ includes (message err) (message lastError) = true.
Proof.
  assert (Hfail : forall n b, In b ImageSearchAPI.backendUrls ->
     Props.caught (H := Props.example_runtime) "해무" 1 20 b
       (Props.unreachable n (ImageSearchAPI.request b "해무" 1 20)) <> None)
    by (intros n b _; discriminate).
  split; [exact Hfail|].
  exact (searchImages_all_fail (H := Props.example_runtime) "해무" 1 20
           Props.unreachable Hfail).
Defined.


Lemma searchImages_normalizes_witness :
  exists res : ImageSearchAPI.SearchResult,
    fst (run (ImageSearchAPI.searchImages (H := Props.example_runtime) "cctv" 3 20)
             (Props.answering 200 (JObj Props.sample_body))) = Normal res
    /\ ImageSearchAPI.images res
       = or_else (Props.field (JObj Props.sample_body) "images") (JArr [])
    /\ (Props.field (JObj Props.sample_body) "images" = JUndefined ->
        ImageSearchAPI.images res = JArr [])
    /\ ImageSearchAPI.total_count res
       = or_else (Props.field (JObj Props.sample_body) "total_count")
                 (ImageSearchAPI.num 0)
    /\ (Props.field (JObj Props.sample_body) "total_count" = JUndefined ->
        ImageSearchAPI.total_count res = ImageSearchAPI.num 0)
    /\ ImageSearchAPI.has_more res
       = or_else (Props.field (JObj Props.sample_body) "has_more") (JBool false)
    /\ (Props.field (JObj Props.sample_body) "has_more" = JUndefined ->
        ImageSearchAPI.has_more res = JBool false)
    /\ ImageSearchAPI.page res = 3
    /\ (ImageSearchAPI.success res = false
        <-> Props.field (JObj Props.sample_body) "success" = JBool false).
Proof.
  apply (searchImages_normalizes (H := Props.example_runtime) "cctv" 3 20
           (Props.answering 200 (JObj Props.sample_body))
           0%nat API_CONFIG.MULTIMODAL_BASE_URL Props.sample_response).
  - left. reflexivity.
  - reflexivity.
  - reflexivity.
  - reflexivity.
Defined.

(** An ok response with the body [null] gives no record: every attempt
    fails on reading [success], and the run throws. *)
Lemma searchImages_null_body_counterexample :
  ok {| status := 200; json := Normal JNull |} = true
  /\ run (ImageSearchAPI.searchImages (H := Props.example_runtime) "cctv" 1 20)
         (Props.answering 200 JNull)
     = (Throw (Error "이미지 검색 실패: Cannot read properties of null (reading 'success')"),
        [EFetch (ImageSearchAPI.request API_CONFIG.MULTIMODAL_BASE_URL "cctv" 1 20);
         ESleep 2000;
         EFetch (ImageSearchAPI.request API_CONFIG.MULTIMODAL_BASE_URL "cctv" 1 20);
         EFetch (ImageSearchAPI.request API_CONFIG.TEST_BACKEND_URL "cctv" 1 20);
         ESleep 2000;
         EFetch (ImageSearchAPI.request API_CONFIG.TEST_BACKEND_URL "cctv" 1 20)]).
Proof. split; reflexivity. Qed.



(** *** Runs on concrete networks *)

(** The main backend is down: one attempt against it, then the test
    backend answers. *)
Example searchImages_main_down :
  run (ImageSearchAPI.searchImages (H := Props.example_runtime) "cctv" 2 20)
      Props.main_down
  = (Normal (ImageSearchAPI.mkSearchResult
               true "테스트" (JArr [JStr "cctv_001.jpg"]) (ImageSearchAPI.num 1)
               (JBool false) 2 (ImageSearchAPI.num 0) (JStr "cctv")),
     [EFetch (ImageSearchAPI.request API_CONFIG.MULTIMODAL_BASE_URL "cctv" 2 20);
      EFetch (ImageSearchAPI.request API_CONFIG.TEST_BACKEND_URL "cctv" 2 20)]).
Proof. reflexivity. Qed.

(** Both backends answer 500: two attempts each, a delay between the two
    attempts against one URL, and the final error. *)
Example searchImages_all_500 :
  run (ImageSearchAPI.searchImages (H := Props.example_runtime) "cctv" 1 20)
      (Props.answering 500 JNull)
  = (Throw (Error "이미지 검색 실패: HTTP error! status: 500"),
     [EFetch (ImageSearchAPI.request API_CONFIG.MULTIMODAL_BASE_URL "cctv" 1 20);
      ESleep 2000;
      EFetch (ImageSearchAPI.request API_CONFIG.MULTIMODAL_BASE_URL "cctv" 1 20);
      EFetch (ImageSearchAPI.request API_CONFIG.TEST_BACKEND_URL "cctv" 1 20);
      ESleep 2000;
      EFetch (ImageSearchAPI.request API_CONFIG.TEST_BACKEND_URL "cctv" 1 20)]).
Proof. reflexivity. Qed.

(** An ok response that is not JSON counts as a failed attempt. *)
Example searchImages_body_not_json :
  fst (run (ImageSearchAPI.searchImages (H := Props.example_runtime) "cctv" 1 20)
           (fun _ _ => Resolved
              {| status := 200;
                 json := Throw {| name := "SyntaxError";
                                  message := "Unexpected token '<'" |} |}))
  = Throw (Error "이미지 검색 실패: Unexpected token '<'").
Proof. reflexivity. Qed.

(** ** [ChatAPI.sendMessage] *)

Lemma map_eval_multimodal (ms : list (gmap string JVal)) :
  ChatAPI.map_eval ChatAPI.multimodal_message (List.map JObj ms)
  = Normal (List.map Props.messages_entry ms).
Proof.
  induction ms as [|m ms IH]; [reflexivity|].
  cbn [List.map ChatAPI.map_eval]. rewrite IH. reflexivity.
Qed.

Lemma map_eval_history (ms : list (gmap string JVal)) :
  ChatAPI.map_eval ChatAPI.history_message (List.map JObj ms)
  = Normal (List.map Props.history_entry ms).
Proof.
  induction ms as [|m ms IH]; [reflexivity|].
  cbn [List.map ChatAPI.map_eval]. rewrite IH. reflexivity.
Qed.

Lemma multimodalBody_run (ms : list (gmap string JVal)) (o : gmap string JVal) net tr :
  ChatAPI.multimodalBody (List.map JObj ms) (JObj o) net tr
  = (Normal (Props.messages_shaped ms o), tr).
Proof.
  unfold ChatAPI.multimodalBody. rewrite eval_bind_run, map_eval_multimodal.
  reflexivity.
Qed.

Lemma historyBody_run (ms : list (gmap string JVal)) (o : gmap string JVal) net tr :
  ChatAPI.historyBody (List.map JObj ms) (JObj o) net tr
  = (Normal (Props.history_shaped ms o), tr).
Proof.
  unfold ChatAPI.historyBody. rewrite !eval_bind_run. cbn [ChatAPI.option_or get].
  rewrite !eval_bind_run, map_eval_history. reflexivity.
Qed.

Section ChatFacts.
Variables (ms : list (gmap string JVal)) (o : gmap string JVal).

Local Abbreviation sendMessage := (ChatAPI.sendMessage (List.map JObj ms) (JObj o)).
Local Abbreviation first_request :=
  (ChatAPI.post ChatAPI.multimodal_url (Props.messages_shaped ms o)).
Local Abbreviation second_request :=
  (ChatAPI.post ChatAPI.chat_url (Props.history_shaped ms o)).

(** The inner [try ... catch]: one request, and the body of the response
    when the attempt succeeds. *)
Lemma try_multimodal_run net :
  try_catch (ChatAPI.try_multimodal (List.map JObj ms) (JObj o))
            (fun _ => mret None) net []
  = (Normal (match net 0%nat first_request with
             | Resolved r =>
                 if ok r then match json r with
                              | Normal data => Some data
                              | Throw _ => None
                              end
                 else None
             | Rejected _ => None
             end), [EFetch first_request]).
Proof.
  unfold try_catch, ChatAPI.try_multimodal.
  rewrite bind_run, multimodalBody_run, bind_run, fetch_run. cbn [List.length app].
  destruct (net 0%nat first_request) as [e|r]; [reflexivity|].
  destruct (ok r); [|reflexivity].
  unfold json_of. rewrite eval_bind_run. destruct (json r); reflexivity.
Qed.

(** The code after the inner [try ... catch], under the outer one: one
    more request. *)
Lemma try_mcp_run net tr :
  snd (try_catch (ChatAPI.try_mcp (List.map JObj ms) (JObj o))
                 (fun error => throw (ChatAPI.rethrow error)) net tr)
  = tr ++ [EFetch second_request].
Proof.
  unfold try_catch, ChatAPI.try_mcp.
  rewrite bind_run, historyBody_run, bind_run, fetch_run.
  destruct (net _ second_request) as [e'|r']; [reflexivity|].
  destruct (negb (ok r')); [reflexivity|].
  unfold json_of, eval. destruct (json r'); reflexivity.
Qed.

Lemma sendMessage_unfold net :
  run sendMessage net
  = match net 0%nat first_request with
    | Resolved r =>
        if ok r then match json r with
                     | Normal data => (Normal data, [EFetch first_request])
                     | Throw _ =>
                         try_catch (ChatAPI.try_mcp (List.map JObj ms) (JObj o))
                           (fun error => throw (ChatAPI.rethrow error))
                           net [EFetch first_request]
                     end
        else try_catch (ChatAPI.try_mcp (List.map JObj ms) (JObj o))
               (fun error => throw (ChatAPI.rethrow error))
               net [EFetch first_request]
    | Rejected _ =>
        try_catch (ChatAPI.try_mcp (List.map JObj ms) (JObj o))
          (fun error => throw (ChatAPI.rethrow error))
          net [EFetch first_request]
    end.
Proof.
  unfold run, ChatAPI.sendMessage. unfold try_catch at 1.
  rewrite bind_run, try_multimodal_run.
  destruct (net 0%nat first_request) as [e|r]; [reflexivity|].
  destruct (ok r); [|reflexivity]. destruct (json r); reflexivity.
Qed.

(** The whole run of [sendMessage]. *)
Lemma sendMessage_run net :
  snd (run sendMessage net)
  = (if Props.multimodal_succeeds (net 0%nat first_request)
     then [EFetch first_request]
     else [EFetch first_request; EFetch second_request])
  /\ (forall r data, net 0%nat first_request = Resolved r -> ok r = true ->
                     json r = Normal data -> fst (run sendMessage net) = Normal data).
Proof.
  rewrite sendMessage_unfold. unfold Props.multimodal_succeeds.
  destruct (net 0%nat first_request) as [e|r].
  - split; [apply try_mcp_run | discriminate].
  - destruct (ok r) eqn:Hok; cbn [andb].
    + destruct (json r) as [data|e] eqn:Hjson.
      * split; [reflexivity|]. intros r0 data0 [= <-] _ Hj. cbn [fst]. congruence.
      * split; [apply try_mcp_run|]. intros r0 data0 [= <-] _ Hj. congruence.
    + split; [apply try_mcp_run|]. intros r0 data0 [= <-] Hok' _. congruence.
Qed.


End ChatFacts.


(** ** [ExGPTAPI.search] *)

Lemma try_catch_rethrow {A} (m : Async A) net tr :
  try_catch m (fun error => throw error) net tr = m net tr.
Proof. unfold try_catch, throw. destruct (m net tr) as [[a|e] tr']; reflexivity. Qed.

Section SearchFacts.
Context `{Runtime}.
Variables (this : ExGPTAPI.Client) (query : string) (options : ExGPTAPI.Options).

(** The test of [search] is containment of a keyword, case ignored. *)
Lemma hasImageKeyword_spec :
  ExGPTAPI.hasImageKeyword query = true <-> Props.has_image_keyword query.
Proof.
  unfold ExGPTAPI.hasImageKeyword, Props.has_image_keyword,
    Props.contains_ignoring_case.
  rewrite existsb_exists. split; intros (keyword & Hin & Hk); exists keyword;
    (split; [exact Hin|]); now apply includes_contains.
Qed.

(** The first event of either call. *)
Lemma image_route_first net :
  snd (run (Props.image_route query options) net) !! 0%nat
  = Some (EFetch (ImageSearchAPI.request API_CONFIG.MULTIMODAL_BASE_URL query
                    (ExGPTAPI.number_or (ExGPTAPI.page options) 1)
                    (ExGPTAPI.number_or (ExGPTAPI.limit options) 20))).
Proof.
  unfold run, Props.image_route. rewrite bind_ret_trace.
  destruct (searchImages_run query
              (ExGPTAPI.number_or (ExGPTAPI.page options) 1)
              (ExGPTAPI.number_or (ExGPTAPI.limit options) 20) net)
    as (k1 & k2 & Htr & Hk1 & _).
  unfold run in Htr. rewrite Htr.
  rewrite lookup_app_l; [|rewrite attempt_events_length; lia].
  apply (attempt_events_even _ k1 0). lia.
Qed.

Lemma chat_route_first net :
  exists b, snd (run (Props.chat_route this query options) net) !! 0%nat
            = Some (EFetch (ChatAPI.post ChatAPI.multimodal_url b)).
Proof.
  unfold run, Props.chat_route. rewrite bind_run.
  unfold ExGPTAPI.chat_options.
  change (ExGPTAPI.chat_messages query)
    with (List.map JObj [<["role" := JStr "user"]> (<["content" := JStr query]> ∅)]).
  match goal with
  | |- context [ChatAPI.sendMessage (List.map JObj ?ms) (JObj ?o)] =>
      destruct (sendMessage_run ms o net) as [Htr _];
      exists (Props.messages_shaped ms o); unfold run in Htr;
      destruct (ChatAPI.sendMessage (List.map JObj ms) (JObj o) net [])
        as [[response|e] tr]
  end; cbn [snd] in *.
  - assert (Hsame : forall tr0,
              snd ((ExGPTAPI.chat_result response
                    ≫= (fun r => mret (ExGPTAPI.Chat r))) net tr0) = tr0).
    { intros tr0. unfold ExGPTAPI.chat_result.
      repeat (rewrite ?bind_run, ?eval_bind_run;
              match goal with
              | |- context [get ?d ?k] => destruct (get d k); [|reflexivity]
              end).
      reflexivity. }
    rewrite Hsame, Htr. now destruct (Props.multimodal_succeeds _).
  - rewrite Htr. now destruct (Props.multimodal_succeeds _).
Qed.

(** C1. [search] dispatches to [ImageSearchAPI.searchImages] if and only if
    the query contains, case ignored, at least one keyword of the image
    keyword set, and to [ChatAPI.sendMessage] if and only if it contains
    none. *)
Theorem search_dispatch :
  (Props.has_image_keyword query
   <-> Props.dispatches_to_searchImages this query options)
  /\ (~ Props.has_image_keyword query
      <-> Props.dispatches_to_sendMessage this query options).
Proof.
  assert (Hexcl : Props.dispatches_to_searchImages this query options ->
                  Props.dispatches_to_sendMessage this query options -> False).
  { intros Hi Hc. specialize (Hi Props.unreachable). specialize (Hc Props.unreachable).
    pose proof (image_route_first Props.unreachable) as H1.
    destruct (chat_route_first Props.unreachable) as [b H2].
    rewrite <- Hi, Hc, H2 in H1. discriminate H1. }
  assert (Himg : ExGPTAPI.hasImageKeyword query = true ->
                 Props.dispatches_to_searchImages this query options).
  { intros Hk net. unfold run, ExGPTAPI.search.
    rewrite try_catch_rethrow, Hk. reflexivity. }
  assert (Hchat : ExGPTAPI.hasImageKeyword query = false ->
                  Props.dispatches_to_sendMessage this query options).
  { intros Hk net. unfold run, ExGPTAPI.search.
    rewrite try_catch_rethrow, Hk. reflexivity. }
  rewrite <- hasImageKeyword_spec.
  destruct (ExGPTAPI.hasImageKeyword query) eqn:Hk.
  - split; split.
    + intros _. exact (Himg eq_refl).
    + reflexivity.
    + intros Hno. now contradiction Hno.
    + intros Hc _. exact (Hexcl (Himg eq_refl) Hc).
  - split; split.
    + discriminate.
    + intros Hi. exfalso. exact (Hexcl Hi (Hchat eq_refl)).
    + intros _. exact (Hchat eq_refl).
    + intros _. discriminate.
Qed.

End SearchFacts.

(** The examples of the specification, with the letters of Basic Latin
    lowered. *)
Example search_keyword_example :
  ExGPTAPI.hasImageKeyword (H := Props.example_runtime) "해무 사진을 보여주세요" = true
  /\ ExGPTAPI.hasImageKeyword (H := Props.example_runtime) "안녕하세요" = false
  /\ ExGPTAPI.hasImageKeyword (H := Props.example_runtime) "고속도로 CCTV" = true.
Proof. repeat split; reflexivity. Qed.

(** ** [HealthAPI] *)

Lemma checkBackendHealth_run (baseUrl backendName : string) net tr :
  HealthAPI.checkBackendHealth baseUrl backendName net tr
  = (Normal (Props.probe baseUrl backendName
               (net (List.length tr) (HealthAPI.get_request (baseUrl +:+ "/health")))),
     tr ++ [EFetch (HealthAPI.get_request (baseUrl +:+ "/health"))]).
Proof.
  unfold Props.probe, HealthAPI.checkBackendHealth, try_catch.
  rewrite !bind_run, !fetch_run. cbn [List.length].
  destruct (net (List.length tr) (HealthAPI.get_request (baseUrl +:+ "/health")))
    as [e|r].
  - destruct (includes (message e) "Failed to fetch"
              || includes (message e) "ERR_CONNECTION_REFUSED"); [reflexivity|].
    destruct (String.eqb (name e) "TimeoutError"); reflexivity.
  - destruct (ok r); [|reflexivity].
    unfold json_of. rewrite !eval_bind_run. destruct (json r) as [data|e]; [reflexivity|].
    destruct (includes (message e) "Failed to fetch"
              || includes (message e) "ERR_CONNECTION_REFUSED"); [reflexivity|].
    destruct (String.eqb (name e) "TimeoutError"); reflexivity.
Qed.

(** How [checkBackendHealth] classifies what its [fetch] is answered
    with. *)
Lemma checkBackendHealth_classifies (baseUrl backendName : string) :
  (forall e,
      includes (message e) "Failed to fetch"
      || includes (message e) "ERR_CONNECTION_REFUSED" = true ->
      HealthAPI.status_of (Props.probe baseUrl backendName (Rejected e))
      = JStr "offline")
  /\ (forall e,
        includes (message e) "Failed to fetch"
        || includes (message e) "ERR_CONNECTION_REFUSED" = false ->
        name e = "TimeoutError" ->
        HealthAPI.status_of (Props.probe baseUrl backendName (Rejected e))
        = JStr "timeout")
  /\ (forall r, ok r = false ->
        HealthAPI.status_of (Props.probe baseUrl backendName (Resolved r))
        = JStr "error")
  /\ (forall r data, ok r = true -> json r = Normal data ->
        HealthAPI.spread data !! "status" = None ->
        HealthAPI.status_of (Props.probe baseUrl backendName (Resolved r))
        = JStr "healthy").
Proof.
  unfold Props.probe, HealthAPI.checkBackendHealth, try_catch.
  split; [|split; [|split]].
  - intros e He. rewrite bind_run, fetch_run. cbn [fst]. now rewrite He.
  - intros e He Hn. rewrite bind_run, fetch_run. cbn [fst]. rewrite He, Hn.
    reflexivity.
  - intros r Hok. rewrite bind_run, fetch_run. cbn [fst]. now rewrite Hok.
  - intros r data Hok Hjson Hnone. rewrite bind_run, fetch_run. cbn [fst].
    rewrite Hok. unfold json_of. rewrite eval_bind_run, Hjson. cbn [fst mret Async_ret].
    unfold HealthAPI.status_of. rewrite lookup_union_r by exact Hnone.
    reflexivity.
Qed.

(** The body of an ok response is spread over the status object, so a
    [status] property of the body replaces ['healthy']. *)
Example checkBackendHealth_body_status :
  HealthAPI.status_of
    (Props.probe API_CONFIG.MULTIMODAL_BASE_URL "메인"
       (Resolved {| status := 200;
                    json := Normal (JObj (<["status" := JStr "degraded"]> ∅)) |}))
  = JStr "degraded".
Proof. reflexivity. Qed.


(** [checkMCPBackend] has two statuses for a rejected fetch, and
    ['timeout'] is not one of them. *)
Lemma checkMCPBackend_rejected net (e : JsError) :
  net 0%nat (HealthAPI.get_request (API_CONFIG.MCP_BASE_URL +:+ "/api/v1/health"))
  = Rejected e ->
  exists h, fst (run HealthAPI.checkMCPBackend net) = Normal h
            /\ HealthAPI.status_of h
               = JStr (if includes (message e) "Failed to fetch"
                       then "offline" else "error").
Proof.
  intros He. unfold run, HealthAPI.checkMCPBackend, try_catch.
  rewrite bind_run, fetch_run. cbn [List.length]. rewrite He.
  destruct (includes (message e) "Failed to fetch"); eexists; split; reflexivity.
Qed.

(** C5, the probe of the MCP backend: a fetch aborted by the timeout is
    reported with the status ['error'], the status of a non-ok response,
    where [checkBackendHealth] reports ['timeout'] for the same
    rejection. *)
Theorem checkMCPBackend_timeout_is_error :
  HealthAPI.status_of
    (Props.probe API_CONFIG.MCP_BASE_URL "메인" (Rejected Props.timeout_error))
  = JStr "timeout"
  /\ fst (run HealthAPI.checkMCPBackend Props.timing_out)
     = Normal (<["status" := JStr "error"]>
              (<["message" := JStr "signal timed out"]> ∅))
  /\ fst (run HealthAPI.checkMCPBackend (Props.answering 500 JNull))
     = Normal (<["status" := JStr "error"]>
              (<["message" := JStr "MCP backend not responding"]> ∅)).
Proof. split; [|split]; reflexivity. Qed.

(** ** The search history *)

Lemma NoDup_firstn {A} (n : nat) (l : list A) : NoDup l -> NoDup (firstn n l).
Proof. intros Hl. exact (sublist_NoDup _ _ Hl (sublist_take l n)). Qed.

Lemma without_not_in (query : string) (l : list string) :
  query ∉ SearchHistory.without query l.
Proof.
  unfold SearchHistory.without. rewrite list_elem_of_In.
  intros Hin. apply filter_In in Hin as [_ Hne].
  now rewrite String.eqb_refl in Hne.
Qed.

Lemma without_NoDup (query : string) (l : list string) :
  NoDup l -> NoDup (SearchHistory.without query l).
Proof.
  rewrite !NoDup_ListNoDup. apply List.NoDup_filter.
Qed.

Lemma without_length (query : string) (l : list string) :
  (List.length (SearchHistory.without query l) <= List.length l)%nat.
Proof.
  unfold SearchHistory.without. induction l as [|x l IH]; [reflexivity|].
  cbn [List.filter]. destruct (negb (x =? query)%string); cbn [List.length]; lia.
Qed.

(** The new history of a call that adds. *)
Lemma new_history_bounded_distinct (query : string) (h : list string) :
  NoDup h ->
  Props.bounded_distinct (firstn 10 (query :: SearchHistory.without query h)).
Proof.
  intros Hh. split.
  - apply firstn_le_length.
  - apply NoDup_firstn. constructor; [apply without_not_in|].
    now apply without_NoDup.
Qed.

(** In a session that starts from a stored history without duplicates,
    every state has a history without duplicates, in the state variable
    and in the saved copy. *)
Lemma reachable_distinct (stored : list string) (st : SearchHistory.State) :
  NoDup stored ->
  SearchHistory.reachable stored st ->
  NoDup (SearchHistory.searchHistory st) /\ NoDup (SearchHistory.saved st).
Proof.
  intros Hstored.
  induction 1 as [|st Hst [IHh IHs]|st query Hst [IHh IHs]
                  |st query Hst [IHh IHs]|st Hst [IHh IHs]].
  - split; [constructor | exact Hstored].
  - split; exact IHs.
  - unfold SearchHistory.addToHistory.
    destruct (String.eqb (trim query) ""); [now split|].
    cbn [SearchHistory.set_and_save SearchHistory.searchHistory SearchHistory.saved].
    split; apply new_history_bounded_distinct, IHh.
  - unfold SearchHistory.removeFromHistory.
    cbn [SearchHistory.set_and_save SearchHistory.searchHistory SearchHistory.saved].
    split; now apply without_NoDup.
  - split; constructor.
Qed.

(** In a session that starts from a stored history of at most 10 entries,
    none twice, every state has such a history, in the state variable and
    in the saved copy. *)
Lemma reachable_bounded_distinct (stored : list string) (st : SearchHistory.State) :
  Props.bounded_distinct stored ->
  SearchHistory.reachable stored st ->
  Props.bounded_distinct (SearchHistory.searchHistory st)
  /\ Props.bounded_distinct (SearchHistory.saved st).
Proof.
  intros Hstored.
  induction 1 as [|st Hst [IHh IHs]|st query Hst [IHh IHs]
                  |st query Hst [IHh IHs]|st Hst [IHh IHs]].
  - split; [split; cbn; [lia | constructor] | exact Hstored].
  - split; exact IHs.
  - unfold SearchHistory.addToHistory.
    destruct (String.eqb (trim query) ""); [now split|].
    cbn [SearchHistory.set_and_save SearchHistory.searchHistory SearchHistory.saved].
    split; apply new_history_bounded_distinct, IHh.
  - unfold SearchHistory.removeFromHistory.
    cbn [SearchHistory.set_and_save SearchHistory.searchHistory SearchHistory.saved].
    destruct IHh as [Hlen Hnd].
    assert (Props.bounded_distinct
              (SearchHistory.without query (SearchHistory.searchHistory st))).
    { split; [pose proof (without_length query (SearchHistory.searchHistory st)); lia|].
      now apply without_NoDup. }
    now split.
  - split; split; cbn; try lia; constructor.
Qed.

(** Past the first render the saved copy is the history. *)
Lemma reachable_saved (stored : list string) (st : SearchHistory.State) :
  SearchHistory.reachable stored st ->
  st = SearchHistory.mount stored
  \/ SearchHistory.saved st = SearchHistory.searchHistory st.
Proof.
  induction 1 as [|st Hst IH|st query Hst IH|st query Hst IH|st Hst IH].
  - now left.
  - right. reflexivity.
  - unfold SearchHistory.addToHistory.
    destruct (String.eqb (trim query) ""); [exact IH | right; reflexivity].
  - right. reflexivity.
  - right. reflexivity.
Qed.

(** C7, as amended.  After [addToHistory] with a query that is not blank,
    on any state, the history has at most 10 entries, the query is in
    front and nowhere else, the history is the first 10 entries of the
    query followed by the old entries other than the query, so what is
    dropped is dropped from the old end, and the saved copy is the
    history; the history has no duplicates if the old one had none, as it
    has in every state of a session that starts from a stored history
    without duplicates.  If the query is blank the call changes
    nothing. *)
Theorem addToHistory_capped (st : SearchHistory.State) (query : string) :
  let st' := SearchHistory.addToHistory st query in
  (trim query <> "" ->
   (List.length (SearchHistory.searchHistory st') <= 10)%nat
   /\ head (SearchHistory.searchHistory st') = Some query
   /\ (query ∉ tail (SearchHistory.searchHistory st'))
   /\ SearchHistory.searchHistory st'
      = firstn 10 (query :: SearchHistory.without query (SearchHistory.searchHistory st))
   /\ SearchHistory.saved st' = SearchHistory.searchHistory st'
   /\ (NoDup (SearchHistory.searchHistory st) ->
       NoDup (SearchHistory.searchHistory st')))
  /\ (trim query = "" -> st' = st)
  /\ (forall stored : list string,
        NoDup stored -> SearchHistory.reachable stored st ->
        NoDup (SearchHistory.searchHistory st')).
Proof.
  intros st'. split; [|split].
  - intros Hadd. subst st'. unfold SearchHistory.addToHistory.
    destruct (String.eqb_spec (trim query) "") as [Hblank|_]; [contradiction|].
    cbn [SearchHistory.set_and_save SearchHistory.searchHistory SearchHistory.saved].
    split; [apply firstn_le_length|]. split; [reflexivity|].
    split.
    { cbn [firstn tail]. intros Hin.
      apply (without_not_in query (SearchHistory.searchHistory st)).
      exact (elem_of_sublist _ _ _ Hin (sublist_take _ 9)). }
    split; [reflexivity|]. split; [reflexivity|].
    intros Hnd. apply new_history_bounded_distinct, Hnd.
  - intros Hblank. subst st'. unfold SearchHistory.addToHistory.
    now rewrite Hblank.
  - intros stored Hstored Hst.
    exact (proj1 (reachable_distinct stored st' Hstored
                    (SearchHistory.reach_add stored st query Hst))).
Qed.

(** Two calls that do not give a history with the query in front and no
    duplicates.  A blank query is not put in front: from the state reached
    by adding ["a"], the call with [" "] leaves ["a"] there.  And
    duplicates that were loaded from storage stay: with ["a"; "a"] stored,
    the call with ["b"] after the load gives ["b"; "a"; "a"]. *)
Lemma addToHistory_counterexample :
  (SearchHistory.reachable []
     (SearchHistory.addToHistory
        (SearchHistory.load (SearchHistory.mount [])) "a")
   /\ SearchHistory.searchHistory
        (SearchHistory.addToHistory
           (SearchHistory.addToHistory
              (SearchHistory.load (SearchHistory.mount [])) "a") " ")
      = ["a"]
   /\ ~ Props.capped_with_front
          (SearchHistory.addToHistory
             (SearchHistory.load (SearchHistory.mount [])) "a") " ")
  /\ (SearchHistory.reachable Props.stored_twice
        (SearchHistory.load (SearchHistory.mount Props.stored_twice))
      /\ trim "b" <> ""
      /\ SearchHistory.searchHistory
           (SearchHistory.addToHistory
              (SearchHistory.load (SearchHistory.mount Props.stored_twice)) "b")
         = ["b"; "a"; "a"]
      /\ ~ Props.capped_with_front
             (SearchHistory.load (SearchHistory.mount Props.stored_twice)) "b").
Proof.
  split.
  - split; [apply SearchHistory.reach_add, SearchHistory.reach_load,
                  SearchHistory.reach_mount|].
    split; [reflexivity|].
    intros (_ & Hfront & _). discriminate Hfront.
  - split; [apply SearchHistory.reach_load, SearchHistory.reach_mount|].
    split; [discriminate|]. split; [reflexivity|].
    intros (_ & _ & Hnd & _). cbn in Hnd.
    inversion Hnd as [|x l Hnotin Hnd']. subst.
    inversion Hnd' as [|x l Hnotin' _]. subst.
    apply Hnotin'. constructor.
Qed.

(** The cap at work: the eleventh query pushes the oldest one out. *)
Example addToHistory_evicts_oldest :
  SearchHistory.searchHistory
    (fold_left SearchHistory.addToHistory
       ["q1"; "q2"; "q3"; "q4"; "q5"; "q6"; "q7"; "q8"; "q9"; "q10"; "q11"; "q3"]
       SearchHistory.initial)
  = ["q3"; "q11"; "q10"; "q9"; "q8"; "q7"; "q6"; "q5"; "q4"; "q2"].
Proof. reflexivity. Qed.

(** ** More of [HealthAPI] *)

(** How the [catch] block of [checkBackendHealth] names an error. *)
Lemma probe_rejected (baseUrl backendName : string) (e : JsError) :
  Props.probe baseUrl backendName (Rejected e)
  = if includes (message e) "Failed to fetch"
       || includes (message e) "ERR_CONNECTION_REFUSED"
    then <["status" := JStr "offline"]>
         (<["backend" := JStr backendName]>
         (<["message" := JStr (backendName +:+ " 서버가 실행되지 않습니다")]> ∅))
    else if String.eqb (name e) "TimeoutError"
    then <["status" := JStr "timeout"]>
         (<["backend" := JStr backendName]>
         (<["message" := JStr (backendName +:+ " 서버 응답 시간 초과")]> ∅))
    else <["status" := JStr "error"]>
         (<["backend" := JStr backendName]>
         (<["message" := JStr (message e)]> ∅)).
Proof.
  unfold Props.probe, HealthAPI.checkBackendHealth, try_catch.
  rewrite bind_run, fetch_run.
  destruct (includes (message e) "Failed to fetch"
            || includes (message e) "ERR_CONNECTION_REFUSED"); [reflexivity|].
  destruct (String.eqb (name e) "TimeoutError"); reflexivity.
Qed.

Lemma probe_resolved (baseUrl backendName : string) (r : Response) :
  Props.probe baseUrl backendName (Resolved r)
  = if ok r
    then match json r with
         | Normal data =>
             HealthAPI.spread data ∪
             (<["status" := JStr "healthy"]> (<["backend" := JStr backendName]> ∅))
         | Throw e => Props.probe baseUrl backendName (Rejected e)
         end
    else <["status" := JStr "error"]>
         (<["backend" := JStr backendName]>
         (<["message" := JStr (backendName +:+ " backend not responding")]> ∅)).
Proof.
  destruct (ok r) eqn:Hok; [destruct (json r) as [data|e] eqn:Hjson|].
  - unfold Props.probe, HealthAPI.checkBackendHealth, try_catch.
    rewrite bind_run, fetch_run, Hok. unfold json_of.
    rewrite eval_bind_run, Hjson. reflexivity.
  - rewrite probe_rejected.
    unfold Props.probe, HealthAPI.checkBackendHealth, try_catch.
    rewrite bind_run, fetch_run, Hok. unfold json_of.
    rewrite eval_bind_run, Hjson.
    destruct (includes (message e) "Failed to fetch"
              || includes (message e) "ERR_CONNECTION_REFUSED"); [reflexivity|].
    destruct (String.eqb (name e) "TimeoutError"); reflexivity.
  - unfold Props.probe, HealthAPI.checkBackendHealth, try_catch.
    rewrite bind_run, fetch_run, Hok. reflexivity.
Qed.


(** X2. [checkMCPBackend] never throws and sends exactly one request, a
    GET of [/api/v1/health] with the 5 s timeout.  A rejection is reported
    as ['offline'] when its message has 'Failed to fetch' and as ['error']
    otherwise, with the rejection's message; a non-ok response as
    ['error']; an ok response with its body spread over
    [{ status: 'healthy' }]. *)
Theorem checkMCPBackend_outcomes net :
  let req := HealthAPI.get_request (API_CONFIG.MCP_BASE_URL +:+ "/api/v1/health") in
  let rejected (e : JsError) : gmap string JVal :=
    if includes (message e) "Failed to fetch"
    then <["status" := JStr "offline"]>
         (<["message" := JStr "백엔드 서버가 실행되지 않습니다"]> ∅)
    else <["status" := JStr "error"]> (<["message" := JStr (message e)]> ∅) in
  url req = "http://localhost:8201/api/v1/health"
  /\ method req = "GET" /\ timeout req = 5000
  /\ run HealthAPI.checkMCPBackend net
     = (Normal match net 0%nat req with
               | Rejected e => rejected e
               | Resolved r =>
                   if ok r
                   then match json r with
                        | Normal data =>
                            HealthAPI.spread data ∪ (<["status" := JStr "healthy"]> ∅)
                        | Throw e => rejected e
                        end
                   else <["status" := JStr "error"]>
                        (<["message" := JStr "MCP backend not responding"]> ∅)
               end,
        [EFetch req]).
Proof.
  intros req rejected. split; [reflexivity|]. split; [reflexivity|].
  split; [reflexivity|].
  unfold run, HealthAPI.checkMCPBackend, try_catch.
  rewrite bind_run, fetch_run. cbn [List.length app]. fold req.
  destruct (net 0%nat req) as [e|r].
  - subst rejected. cbn beta. destruct (includes (message e) "Failed to fetch");
      reflexivity.
  - destruct (ok r); [|reflexivity].
    unfold json_of. rewrite eval_bind_run. destruct (json r) as [data|e]; [reflexivity|].
    subst rejected. cbn beta. destruct (includes (message e) "Failed to fetch");
      reflexivity.
Qed.

(** X3. [checkMultimodalBackend] never throws and sends one or two
    requests; the second one is sent exactly when the main backend is not
    healthy.  The status it returns is ['healthy'] exactly when the main
    backend or the test backend is healthy. *)
Theorem checkMultimodalBackend_healthy_iff net :
  let mainResult :=
    Props.probe API_CONFIG.MULTIMODAL_BASE_URL "메인"
      (net 0%nat (HealthAPI.get_request (API_CONFIG.MULTIMODAL_BASE_URL +:+ "/health"))) in
  let testResult :=
    Props.probe API_CONFIG.TEST_BACKEND_URL "테스트"
      (net 1%nat (HealthAPI.get_request (API_CONFIG.TEST_BACKEND_URL +:+ "/health"))) in
  exists h : gmap string JVal,
    fst (run HealthAPI.checkMultimodalBackend net) = Normal h
    /\ is_str (HealthAPI.status_of h) "healthy"
       = is_str (HealthAPI.status_of mainResult) "healthy"
         || is_str (HealthAPI.status_of testResult) "healthy"
    /\ List.length (snd (run HealthAPI.checkMultimodalBackend net))
       = (if is_str (HealthAPI.status_of mainResult) "healthy" then 1 else 2)%nat.
Proof.
  intros mainResult testResult.
  unfold run, HealthAPI.checkMultimodalBackend.
  rewrite bind_run, checkBackendHealth_run. cbn [List.length app]. fold mainResult.
  destruct (is_str (HealthAPI.status_of mainResult) "healthy") eqn:Hmain.
  - exists mainResult. split; [reflexivity|]. split; [|reflexivity].
    now rewrite Hmain.
  - rewrite bind_run, checkBackendHealth_run. cbn [List.length app]. fold testResult.
    destruct (is_str (HealthAPI.status_of testResult) "healthy") eqn:Htest.
    + exists testResult. split; [reflexivity|]. split; [|reflexivity].
      now rewrite Htest.
    + exists mainResult. split; [reflexivity|]. split; [|reflexivity].
      now rewrite Hmain.
Qed.

(** ** More of [ChatAPI] *)

Section ChatMore.
Variables (ms : list (gmap string JVal)) (o : gmap string JVal).

Local Abbreviation sendMessage := (ChatAPI.sendMessage (List.map JObj ms) (JObj o)).
Local Abbreviation first_request :=
  (ChatAPI.post ChatAPI.multimodal_url (Props.messages_shaped ms o)).
Local Abbreviation second_request :=
  (ChatAPI.post ChatAPI.chat_url (Props.history_shaped ms o)).

Lemma try_mcp_result net tr :
  fst (try_catch (ChatAPI.try_mcp (List.map JObj ms) (JObj o))
                 (fun error => throw (ChatAPI.rethrow error)) net tr)
  = Props.after_fallback (net (List.length tr) second_request).
Proof.
  unfold try_catch, ChatAPI.try_mcp, Props.after_fallback.
  rewrite bind_run, historyBody_run, bind_run, fetch_run.
  destruct (net _ second_request) as [e'|r']; [reflexivity|].
  destruct (ok r'); [|reflexivity].
  unfold json_of, eval. cbn [negb]. destruct (json r'); reflexivity.
Qed.


Lemma streamingBody_run net tr :
  ChatAPI.streamingBody (List.map JObj ms) (JObj o) net tr
  = (Normal (Props.streaming_shaped ms o), tr).
Proof.
  unfold ChatAPI.streamingBody. rewrite eval_bind_run, map_eval_history.
  reflexivity.
Qed.


End ChatMore.

Lemma map_eval_multimodal_null (ms : list (gmap string JVal)) (rest : list JVal) :
  ChatAPI.map_eval ChatAPI.multimodal_message (List.map JObj ms ++ JNull :: rest)
  = Throw (cannot_read "null" "role").
Proof.
  induction ms as [|m ms IH]; [reflexivity|].
  cbn [List.map app ChatAPI.map_eval]. now rewrite IH.
Qed.

Lemma map_eval_history_null (ms : list (gmap string JVal)) (rest : list JVal) :
  ChatAPI.map_eval ChatAPI.history_message (List.map JObj ms ++ JNull :: rest)
  = Throw (cannot_read "null" "role").
Proof.
  induction ms as [|m ms IH]; [reflexivity|].
  cbn [List.map app ChatAPI.map_eval]. now rewrite IH.
Qed.

(** X5. A [null] among the messages: [sendMessage] sends no request at all
    and throws the [TypeError] of the property read, wrapped by the outer
    [catch]. *)
Theorem sendMessage_null_message (ms : list (gmap string JVal)) (rest : list JVal)
    (o : gmap string JVal) net :
  run (ChatAPI.sendMessage (List.map JObj ms ++ JNull :: rest) (JObj o)) net
  = (Throw (Error "채팅 요청 실패: Cannot read properties of null (reading 'role')"),
     []).
Proof.
  unfold run, ChatAPI.sendMessage, ChatAPI.try_multimodal, ChatAPI.try_mcp,
    ChatAPI.multimodalBody, ChatAPI.historyBody, try_catch.
  rewrite bind_run, bind_run, eval_bind_run, map_eval_multimodal_null.
  cbn [mret Async_ret]. rewrite bind_run, eval_bind_run.
  cbn [ChatAPI.option_or get]. rewrite eval_bind_run, map_eval_history_null.
  reflexivity.
Qed.

(** ** The uploads *)


Section UploadFile.
Variables (file : JVal) (userId : option string).

Local Abbreviation form := (ChatAPI.uploadForm file userId).
Local Abbreviation first_upload :=
  (post_form ChatAPI.multimodal_upload_url form API_CONFIG.TIMEOUT).
Local Abbreviation second_upload :=
  (post_form ChatAPI.files_upload_url form API_CONFIG.TIMEOUT).


End UploadFile.

(** ** More of [ImageSearchAPI.searchImages] *)

Section ImageSearchMore.
Context `{Runtime}.
Variables (query : string) (page limit : Z).

Local Abbreviation request b := (ImageSearchAPI.request b query page limit).
Local Abbreviation attempt_result := (Props.attempt_result query page limit).
Local Abbreviation caught := (Props.caught query page limit).
Local Abbreviation searchImages := (ImageSearchAPI.searchImages query page limit).
Local Abbreviation primary := API_CONFIG.MULTIMODAL_BASE_URL.
Local Abbreviation secondary := API_CONFIG.TEST_BACKEND_URL.

(** Every record an attempt returns carries the page argument and the
    label of the backend it was sent to. *)
Lemma attempt_result_labels (b : string) (o : FetchOutcome)
    (res : ImageSearchAPI.SearchResult) :
  attempt_result b o = Normal res ->
  ImageSearchAPI.page res = page
  /\ ImageSearchAPI.backend res = ImageSearchAPI.backendType b.
Proof.
  unfold Props.attempt_result, ImageSearchAPI.attempt_body.
  rewrite bind_run, fetch_run. destruct o as [e|r]; [discriminate|].
  destruct (negb (ok r)); [discriminate|].
  unfold json_of. rewrite eval_bind_run. destruct (json r) as [data|e]; [|discriminate].
  repeat (rewrite eval_bind_run;
          match goal with
          | |- context [get ?d ?k] => destruct (get d k); [|discriminate]
          end).
  intros [= <-]. split; reflexivity.
Qed.

(** An ok response whose body cannot be read, or is [null], is a failed
    attempt. *)
Lemma caught_unreadable (b : string) (r : Response) :
  ok r = true ->
  (forall e, json r = Throw e -> caught b (Resolved r) = Some e)
  /\ (json r = Normal JNull ->
      caught b (Resolved r) = Some (cannot_read "null" "success")).
Proof.
  intros Hok.
  unfold Props.caught, Props.attempt_result, ImageSearchAPI.attempt_body.
  rewrite bind_run, fetch_run, Hok. cbn [negb]. unfold json_of.
  rewrite eval_bind_run. split.
  - intros e ->. reflexivity.
  - intros ->. reflexivity.
Qed.

Lemma searchImages_result_page net (res : ImageSearchAPI.SearchResult) :
  fst (run searchImages net) = Normal res -> ImageSearchAPI.page res = page.
Proof.
  intros Hres.
  destruct (searchImages_run query page limit net)
    as (k1 & k2 & _ & _ & _ & _ & _ & Hlast).
  destruct (attempt_result primary (net (2 * (k1 - 1))%nat (request primary)))
    as [r|e1] eqn:Hres1.
  - destruct Hlast as [Hr _]. rewrite Hres in Hr. injection Hr as <-.
    now apply attempt_result_labels in Hres1.
  - destruct Hlast as (_ & _ & Hlast).
    destruct (attempt_result secondary
                (net (2 * k1 - 1 + 2 * (k2 - 1))%nat (request secondary)))
      as [r|e2] eqn:Hres2.
    + rewrite Hres in Hlast. injection Hlast as <-.
      now apply attempt_result_labels in Hres2.
    + destruct Hlast as [_ Hthrow]. rewrite Hres in Hthrow. discriminate.
Qed.

(** X13. Whenever [searchImages] returns a record, its [page] is the page
    argument and its [backend] names the backend of the last request of
    the run: '메인' when that request went to the main URL, '테스트' when
    it went to the test URL. *)
Theorem searchImages_backend_label net (res : ImageSearchAPI.SearchResult) :
  fst (run searchImages net) = Normal res ->
  ImageSearchAPI.page res = page
  /\ exists n, S n = List.length (snd (run searchImages net))
     /\ ((ImageSearchAPI.backend res = "메인"
          /\ snd (run searchImages net) !! n = Some (EFetch (request primary)))
         \/ (ImageSearchAPI.backend res = "테스트"
             /\ snd (run searchImages net) !! n = Some (EFetch (request secondary)))).
Proof.
  intros Hres.
  destruct (searchImages_run query page limit net)
    as (k1 & k2 & Htr & Hk1 & Hk2 & _ & _ & Hlast).
  rewrite Htr.
  destruct (attempt_result primary (net (2 * (k1 - 1))%nat (request primary)))
    as [r|e1] eqn:Hres1.
  - destruct Hlast as [Hr ->]. rewrite Hres in Hr. injection Hr as <-.
    destruct (attempt_result_labels _ _ _ Hres1) as [Hp Hb].
    split; [exact Hp|]. exists (2 * (k1 - 1))%nat.
    cbn [Props.attempt_events]. rewrite app_nil_r, attempt_events_length.
    split; [lia|]. left. split; [exact Hb|]. apply attempt_events_even. lia.
  - destruct Hlast as (_ & Hk2' & Hlast).
    destruct (attempt_result secondary
                (net (2 * k1 - 1 + 2 * (k2 - 1))%nat (request secondary)))
      as [r|e2] eqn:Hres2.
    + rewrite Hres in Hlast. injection Hlast as <-.
      destruct (attempt_result_labels _ _ _ Hres2) as [Hp Hb].
      split; [exact Hp|]. exists (2 * k1 - 1 + 2 * (k2 - 1))%nat.
      rewrite length_app, !attempt_events_length. split; [lia|].
      right. split; [exact Hb|].
      rewrite lookup_app_r; rewrite attempt_events_length; [|lia].
      replace (2 * k1 - 1 + 2 * (k2 - 1) - (2 * k1 - 1))%nat
        with (2 * (k2 - 1))%nat by lia.
      apply attempt_events_even. lia.
    + destruct Hlast as [_ Hthrow]. rewrite Hres in Hthrow. discriminate.
Qed.

(** X14. When every response is ok but has a body that cannot be read as
    JSON, or the body [null], no attempt returns: [searchImages] throws
    its final error, built from the error of reading the last body. *)
Theorem searchImages_unreadable_body net :
  (forall n b, In b ImageSearchAPI.backendUrls ->
     exists r, net n (request b) = Resolved r /\ ok r = true
               /\ ((exists e, json r = Throw e) \/ json r = Normal JNull)) ->
  exists e : JsError,
    fst (run searchImages net)
    = Throw (Error ("이미지 검색 실패: " +:+ ImageSearchAPI.failure_detail (Some e)))
    /\ exists n r, S n = List.length (snd (run searchImages net))
         /\ net n (request secondary) = Resolved r
         /\ (json r = Throw e
             \/ (json r = Normal JNull /\ e = cannot_read "null" "success")).
Proof.
  intros Hbody.
  destruct (searchImages_run query page limit net)
    as (k1 & k2 & Htr & Hk1 & Hk2 & _ & _ & Hlast).
  assert (Hcaught : forall n b, In b ImageSearchAPI.backendUrls ->
            exists r e, net n (request b) = Resolved r
                        /\ attempt_result b (net n (request b)) = Throw e
                        /\ (json r = Throw e
                            \/ (json r = Normal JNull
                                /\ e = cannot_read "null" "success"))).
  { intros n b Hb. destruct (Hbody n b Hb) as (r & Hr & Hok & Hj).
    destruct (caught_unreadable b r Hok) as [Hthrow Hnull].
    unfold Props.caught in Hthrow, Hnull. rewrite Hr.
    destruct Hj as [[e He] | Hn].
    - exists r, e. specialize (Hthrow e He).
      destruct (attempt_result b (Resolved r)); [discriminate|].
      injection Hthrow as ->. split; [reflexivity|]. split; [reflexivity|]. now left.
    - exists r, (cannot_read "null" "success"). specialize (Hnull Hn).
      destruct (attempt_result b (Resolved r)); [discriminate|].
      injection Hnull as ->. split; [reflexivity|]. split; [reflexivity|].
      right. now split. }
  destruct (Hcaught (2 * (k1 - 1))%nat primary) as (r1 & e1 & _ & He1 & _);
    [now left|].
  rewrite He1 in Hlast. destruct Hlast as (_ & Hk2' & Hlast).
  destruct (Hcaught (2 * k1 - 1 + 2 * (k2 - 1))%nat secondary)
    as (r2 & e2 & Hr2 & He2 & Hj2); [right; now left|].
  rewrite He2 in Hlast. destruct Hlast as [_ Hthrow].
  exists e2. split; [exact Hthrow|].
  exists (2 * k1 - 1 + 2 * (k2 - 1))%nat, r2. rewrite Htr.
  split; [rewrite length_app, !attempt_events_length; lia|]. now split.
Qed.

End ImageSearchMore.

Lemma searchImages_backend_label_witness :
  fst (run (ImageSearchAPI.searchImages (H := Props.example_runtime) "cctv" 2 20)
           Props.main_down)
  = Normal (ImageSearchAPI.mkSearchResult
              true "테스트" (JArr [JStr "cctv_001.jpg"]) (ImageSearchAPI.num 1)
              (JBool false) 2 (ImageSearchAPI.num 0) (JStr "cctv"))
  /\ (2 = 2
      /\ exists n,
           S n = List.length
                   (snd (run (ImageSearchAPI.searchImages (H := Props.example_runtime)
                                "cctv" 2 20) Props.main_down))
           /\ (("테스트" = "메인"
                /\ snd (run (ImageSearchAPI.searchImages (H := Props.example_runtime)
                               "cctv" 2 20) Props.main_down) !! n
                   = Some (EFetch (ImageSearchAPI.request
                                     API_CONFIG.MULTIMODAL_BASE_URL "cctv" 2 20)))
               \/ ("테스트" = "테스트"
                   /\ snd (run (ImageSearchAPI.searchImages
                                  (H := Props.example_runtime) "cctv" 2 20)
                               Props.main_down) !! n
                      = Some (EFetch (ImageSearchAPI.request
                                        API_CONFIG.TEST_BACKEND_URL "cctv" 2 20))))).
Proof.
  split; [reflexivity|].
  exact (searchImages_backend_label (H := Props.example_runtime) "cctv" 2 20
           Props.main_down _ eq_refl).
Defined.

Lemma searchImages_unreadable_body_witness :
  (forall n b, In b ImageSearchAPI.backendUrls ->
     exists r, Props.answering 200 JNull n (ImageSearchAPI.request b "cctv" 1 20)
               = Resolved r /\ ok r = true
               /\ ((exists e, json r = Throw e) \/ json r = Normal JNull))
  /\ exists e : JsError,
       fst (run (ImageSearchAPI.searchImages (H := Props.example_runtime) "cctv" 1 20)
                (Props.answering 200 JNull))
       = Throw (Error ("이미지 검색 실패: " +:+ ImageSearchAPI.failure_detail (Some e)))
       /\ exists n r,
            S n = List.length
                    (snd (run (ImageSearchAPI.searchImages (H := Props.example_runtime)
                                 "cctv" 1 20) (Props.answering 200 JNull)))
            /\ Props.answering 200 JNull n
                 (ImageSearchAPI.request API_CONFIG.TEST_BACKEND_URL "cctv" 1 20)
               = Resolved r
            /\ (json r = Throw e
                \/ (json r = Normal JNull /\ e = cannot_read "null" "success")).
Proof.
  assert (Hbody : forall n b, In b ImageSearchAPI.backendUrls ->
     exists r, Props.answering 200 JNull n (ImageSearchAPI.request b "cctv" 1 20)
               = Resolved r /\ ok r = true
               /\ ((exists e, json r = Throw e) \/ json r = Normal JNull)).
  { intros n b _. eexists. split; [reflexivity|]. split; [reflexivity|]. now right. }
  split; [exact Hbody|].
  exact (searchImages_unreadable_body (H := Props.example_runtime) "cctv" 1 20
           (Props.answering 200 JNull) Hbody).
Defined.


(** ** More of [ExGPTAPI] *)

Section SearchMore.
Context `{Runtime}.
Variables (this : ExGPTAPI.Client) (query : string) (options : ExGPTAPI.Options).

Local Abbreviation chat_call :=
  (ChatAPI.sendMessage (List.map JObj [Props.user_message query])
     (JObj (Props.chat_options_object this options))).

(** [search] on a query without keyword is the chat call followed by the
    wrapping of its response. *)
Lemma search_chat_unfold net :
  ExGPTAPI.hasImageKeyword query = false ->
  run (ExGPTAPI.search this query options) net
  = match run chat_call net with
    | (Normal response, tr) =>
        (ExGPTAPI.chat_result response ≫= (fun r => mret (ExGPTAPI.Chat r))) net tr
    | (Throw e, tr) => (Throw e, tr)
    end.
Proof.
  intros Hk. unfold run, ExGPTAPI.search. rewrite try_catch_rethrow, Hk, bind_run.
  reflexivity.
Qed.

Lemma chat_result_run (response : JVal) net tr :
  (ExGPTAPI.chat_result response ≫= (fun r => mret (ExGPTAPI.Chat r))) net tr
  = (match response with
     | JNull => Throw (cannot_read "null" "response")
     | JUndefined => Throw (cannot_read "undefined" "response")
     | _ =>
         let field k := match get response k with
                        | Normal v => v
                        | Throw _ => JUndefined
                        end in
         Normal (ExGPTAPI.Chat
                   {| ExGPTAPI.success := true;
                      ExGPTAPI.type := "chat";
                      ExGPTAPI.response := field "response";
                      ExGPTAPI.sources := field "sources";
                      ExGPTAPI.suggested_questions := field "suggested_questions";
                      ExGPTAPI.metadata := field "metadata";
                      ExGPTAPI.session_id := field "session_id";
                      ExGPTAPI.message_id := field "message_id" |})
     end, tr).
Proof.
  unfold ExGPTAPI.chat_result. destruct response; reflexivity.
Qed.

(** No property of [options] other than [page] and [limit] comes from the
    two numbers. *)
Lemma spread_options_other (k : string) :
  k <> "page" -> k <> "limit" ->
  ExGPTAPI.spread_options options !! k = ExGPTAPI.others options !! k.
Proof.
  intros Hp Hl. unfold ExGPTAPI.spread_options, ExGPTAPI.number_property.
  rewrite !lookup_union.
  assert (Hpage : (match ExGPTAPI.page options with
                   | Some v => ({[ "page" := ImageSearchAPI.num v ]} : gmap string JVal)
                   | None => ∅
                   end) !! k = None).
  { destruct (ExGPTAPI.page options); [|apply lookup_empty].
    apply lookup_singleton_ne. congruence. }
  assert (Hlimit : (match ExGPTAPI.limit options with
                    | Some v => ({[ "limit" := ImageSearchAPI.num v ]} : gmap string JVal)
                    | None => ∅
                    end) !! k = None).
  { destruct (ExGPTAPI.limit options); [|apply lookup_empty].
    apply lookup_singleton_ne. congruence. }
  rewrite Hpage, Hlimit. now destruct (ExGPTAPI.others options !! k).
Qed.


(** X11. For a query without image keyword, [search] sends what the chat
    call sends and ends as it does, except that a response body is
    wrapped: an object body gives a record with [success: true],
    [type: 'chat'] and the six properties of the body (absent ones are
    [undefined]); a [null] body makes [search] throw the [TypeError] of
    reading [response], which no [catch] of [sendMessage] wraps; an error
    of the chat call is rethrown as it is. *)
Theorem search_chat_result net :
  ExGPTAPI.hasImageKeyword query = false ->
  snd (run (ExGPTAPI.search this query options) net) = snd (run chat_call net)
  /\ (forall m, fst (run chat_call net) = Normal (JObj m) ->
        fst (run (ExGPTAPI.search this query options) net)
        = Normal (ExGPTAPI.Chat
                    {| ExGPTAPI.success := true;
                       ExGPTAPI.type := "chat";
                       ExGPTAPI.response := Props.prop m "response";
                       ExGPTAPI.sources := Props.prop m "sources";
                       ExGPTAPI.suggested_questions := Props.prop m "suggested_questions";
                       ExGPTAPI.metadata := Props.prop m "metadata";
                       ExGPTAPI.session_id := Props.prop m "session_id";
                       ExGPTAPI.message_id := Props.prop m "message_id" |}))
  /\ (fst (run chat_call net) = Normal JNull ->
        fst (run (ExGPTAPI.search this query options) net)
        = Throw {| name := "TypeError";
                   message := "Cannot read properties of null (reading 'response')" |})
  /\ (forall e, fst (run chat_call net) = Throw e ->
        fst (run (ExGPTAPI.search this query options) net) = Throw e).
Proof.
  intros Hk. rewrite search_chat_unfold by exact Hk.
  destruct (run chat_call net) as [[response|e] tr]; cbn [fst snd].
  - rewrite chat_result_run. split; [now destruct response|].
    split; [|split].
    + intros m [= ->]. reflexivity.
    + intros [= ->]. reflexivity.
    + discriminate.
  - split; [reflexivity|]. split; [discriminate|]. split; [discriminate|].
    now intros e' [= ->].
Qed.

End SearchMore.


Lemma search_chat_result_witness :
  ExGPTAPI.hasImageKeyword (H := Props.example_runtime) "안녕하세요" = false
  /\ fst (run (ExGPTAPI.search (H := Props.example_runtime) Props.sample_client
                 "안녕하세요" ExGPTAPI.no_options)
              (Props.answering 200 (JObj Props.sample_chat_body)))
     = Normal (ExGPTAPI.Chat
                 {| ExGPTAPI.success := true;
                    ExGPTAPI.type := "chat";
                    ExGPTAPI.response := JStr "안녕하세요";
                    ExGPTAPI.sources := JUndefined;
                    ExGPTAPI.suggested_questions := JUndefined;
                    ExGPTAPI.metadata := JUndefined;
                    ExGPTAPI.session_id := JStr "s1";
                    ExGPTAPI.message_id := JUndefined |}).
Proof.
  split; [reflexivity|].
  destruct (search_chat_result (H := Props.example_runtime) Props.sample_client
              "안녕하세요" ExGPTAPI.no_options
              (Props.answering 200 (JObj Props.sample_chat_body)) eq_refl)
    as (_ & Hobject & _).
  exact (Hobject Props.sample_chat_body eq_refl).
Defined.

(** X23. For a query with an image keyword, the first request of [search]
    goes to the image search of the main backend with [limit] the
    [options.limit] given, or 20 when it is absent or 0, and [offset] the
    pages before [options.page], or before page 1 when that is absent or
    0, as a product of doubles: the exact product when that is at most
    [2^53] in absolute value; without options this is
    [limit: 20, offset: 0]. *)
Theorem search_image_request `{Runtime} (this : ExGPTAPI.Client) (query : string)
    (options : ExGPTAPI.Options) net :
  ExGPTAPI.hasImageKeyword query = true ->
  let p := match ExGPTAPI.page options with
           | Some v => if v =? 0 then 1 else v
           | None => 1
           end in
  let l := match ExGPTAPI.limit options with
           | Some v => if v =? 0 then 20 else v
           | None => 20
           end in
  exists b : gmap string JVal,
    snd (run (ExGPTAPI.search this query options) net) !! 0%nat
    = Some (EFetch {| method := "POST";
                      url := "http://localhost:8201/api/v1/search/images";
                      headers := [("Content-Type", "application/json")];
                      body := Some (JObj b);
                      timeout := 120000 |})
    /\ b !! "query" = Some (JStr query)
    /\ b !! "limit" = Some (ImageSearchAPI.num l)
    /\ b !! "offset" = Some (ImageSearchAPI.offset p l)
    /\ (Z.abs ((p - 1) * l) <= 2 ^ 53 ->
        b !! "offset" = Some (ImageSearchAPI.num ((p - 1) * l)))
    /\ (ExGPTAPI.page options = None -> ExGPTAPI.limit options = None ->
        b !! "limit" = Some (ImageSearchAPI.num 20)
        /\ b !! "offset" = Some (ImageSearchAPI.num 0)).
Proof.
  intros Hk p l.
  assert (Hrun : run (ExGPTAPI.search this query options) net
                 = run (Props.image_route query options) net).
  { unfold run, ExGPTAPI.search. now rewrite try_catch_rethrow, Hk. }
  rewrite Hrun, image_route_first.
  eexists. split; [reflexivity|]. split; [reflexivity|]. split; [reflexivity|].
  split; [reflexivity|].
  split; [intros Hsmall; rewrite <- (offset_exact p l Hsmall); reflexivity|].
  intros Hp Hl. subst p l. rewrite Hp, Hl.
  split; reflexivity.
Qed.

Lemma search_image_request_witness :
  ExGPTAPI.hasImageKeyword (H := Props.example_runtime) "해무 사진을 보여주세요" = true
  /\ exists b : gmap string JVal,
       snd (run (ExGPTAPI.search (H := Props.example_runtime) Props.sample_client
                   "해무 사진을 보여주세요" ExGPTAPI.no_options)
                Props.unreachable) !! 0%nat
       = Some (EFetch {| method := "POST";
                         url := "http://localhost:8201/api/v1/search/images";
                         headers := [("Content-Type", "application/json")];
                         body := Some (JObj b);
                         timeout := 120000 |})
       /\ b !! "limit" = Some (ImageSearchAPI.num 20)
       /\ b !! "offset" = Some (ImageSearchAPI.num 0).
Proof.
  split; [reflexivity|].
  destruct (search_image_request (H := Props.example_runtime) Props.sample_client
              "해무 사진을 보여주세요" ExGPTAPI.no_options Props.unreachable eq_refl)
    as (b & Hfirst & _ & _ & _ & _ & Hdefault).
  exists b. split; [exact Hfirst|]. exact (Hdefault eq_refl eq_refl).
Defined.

(** ** [simulateApiCall] *)

Section Simulate.
Context `{Runtime}.
Variables (random36 : string) (now : Z) (query : string) (page limit : Z).

Local Abbreviation simulate :=
  (ExGPTAPI.simulateApiCall random36 now query page limit).
Local Abbreviation the_search :=
  (ExGPTAPI.search (ExGPTAPI.construct random36 now) query
     {| ExGPTAPI.page := Some page; ExGPTAPI.limit := Some limit;
        ExGPTAPI.others := ∅ |}).

Lemma simulate_unfold net :
  run simulate net
  = match run the_search net with
    | (Normal result, tr) =>
        try_catch (ExGPTAPI.to_mock query page limit result)
          (fun error => throw (Error ("API 호출 실패: " +:+ message error))) net tr
    | (Throw e, tr) => (Throw (Error ("API 호출 실패: " +:+ message e)), tr)
    end.
Proof.
  unfold run, ExGPTAPI.simulateApiCall, try_catch. cbn zeta. rewrite bind_run.
  destruct (the_search net []) as [[result|e] tr]; reflexivity.
Qed.

(** The conversion never throws. *)
Lemma to_mock_run (result : ExGPTAPI.Result) :
  exists m : ExGPTAPI.MockResult,
    (forall net tr, ExGPTAPI.to_mock query page limit result net tr = (Normal m, tr))
    /\ ExGPTAPI.mock_success m = true
    /\ ExGPTAPI.mock_limit m = limit
    /\ ExGPTAPI.mock_query m = query
    /\ match result with
       | ExGPTAPI.Chat _ =>
           ExGPTAPI.mock_page m = page
           /\ ExGPTAPI.results m = JArr []
           /\ ExGPTAPI.total m = ImageSearchAPI.num 0
           /\ ExGPTAPI.hasMore m = JBool false
       | ExGPTAPI.Images r =>
           ExGPTAPI.mock_page m
           = ExGPTAPI.number_or (Some (ImageSearchAPI.page r)) page
       end.
Proof.
  destruct result as [r|r]; unfold ExGPTAPI.to_mock.
  - eexists. split; [reflexivity|]. repeat split.
  - assert (Hget : exists x, ExGPTAPI.get_optional (ExGPTAPI.metadata r)
                               "response_time_ms" = Normal x)
      by (destruct (ExGPTAPI.metadata r); eexists; reflexivity).
    destruct Hget as [x Hx]. eexists. split.
    + intros net tr. rewrite eval_bind_run, Hx. reflexivity.
    + repeat split.
Qed.

(** X9. [simulateApiCall] sends what [search] sends.  It returns exactly
    when [search] returns, and what it returns has [success: true] (also
    when the backend's record says [success: false]), the [limit] and the
    [query] it was given, and the page it was given, except that page 0 of
    an image search comes back as page 1; a chat answer comes back as no
    results.  It throws exactly when [search] throws, an [Error] whose
    message is the fixed prefix and the message of that error. *)
Theorem simulateApiCall_result net :
  snd (run simulate net) = snd (run the_search net)
  /\ match fst (run simulate net) with
     | Normal m =>
         (exists result, fst (run the_search net) = Normal result)
         /\ ExGPTAPI.mock_success m = true
         /\ ExGPTAPI.mock_limit m = limit
         /\ ExGPTAPI.mock_query m = query
         /\ ExGPTAPI.mock_page m
            = (if ExGPTAPI.hasImageKeyword query && (page =? 0) then 1 else page)
         /\ (ExGPTAPI.hasImageKeyword query = false ->
             ExGPTAPI.results m = JArr []
             /\ ExGPTAPI.total m = ImageSearchAPI.num 0
             /\ ExGPTAPI.hasMore m = JBool false)
     | Throw err =>
         exists e, fst (run the_search net) = Throw e
                   /\ err = Error ("API 호출 실패: " +:+ message e)
     end.
Proof.
  rewrite simulate_unfold.
  assert (Hshape : forall result, fst (run the_search net) = Normal result ->
            if ExGPTAPI.hasImageKeyword query
            then exists r, result = ExGPTAPI.Images r
                           /\ ImageSearchAPI.page r = ExGPTAPI.number_or (Some page) 1
            else exists r, result = ExGPTAPI.Chat r).
  { intros result. destruct (ExGPTAPI.hasImageKeyword query) eqn:Hk.
    - unfold run, ExGPTAPI.search. rewrite try_catch_rethrow, Hk, bind_run.
      cbn [ExGPTAPI.page ExGPTAPI.limit].
      pose proof (searchImages_result_page query
                    (ExGPTAPI.number_or (Some page) 1)
                    (ExGPTAPI.number_or (Some limit) 20) net) as Hpage.
      unfold run in Hpage.
      destruct (ImageSearchAPI.searchImages query _ _ net []) as [[r|e] tr];
        cbn [fst mret Async_ret]; [|discriminate].
      intros [= <-]. exists r. split; [reflexivity|]. now apply Hpage.
    - rewrite (search_chat_unfold _ _ _ net Hk).
      destruct (run _ net) as [[response|e] tr]; [|discriminate].
      rewrite chat_result_run. destruct response; cbn [fst]; try discriminate;
        intros [= <-]; eexists; reflexivity. }
  destruct (run the_search net) as [[result|e] tr]; cbn [fst snd] in *.
  - destruct (to_mock_run result) as (m & Hrun & Hs & Hl & Hq & Hfields).
    unfold try_catch. rewrite Hrun. cbn [fst snd]. split; [reflexivity|].
    split; [now exists result|].
    split; [exact Hs|]. split; [exact Hl|]. split; [exact Hq|].
    specialize (Hshape result eq_refl).
    destruct (ExGPTAPI.hasImageKeyword query).
    + destruct Hshape as (r & -> & Hp). split; [|discriminate].
      rewrite Hfields, Hp. cbn [andb]. unfold ExGPTAPI.number_or.
      destruct (Z.eqb_spec page 0) as [->|Hne]; [reflexivity|].
      destruct (Z.eqb_spec page 0); [contradiction | reflexivity].
    + destruct Hshape as (r & ->). destruct Hfields as (Hp & Hr & Ht & Hh).
      split; [exact Hp|]. intros _. now repeat split.
  - split; [reflexivity|]. now exists e.
Qed.

End Simulate.

(** ** More of the search history *)

Lemma without_cons_same (query : string) (l : list string) :
  SearchHistory.without query (query :: l) = SearchHistory.without query l.
Proof.
  unfold SearchHistory.without. cbn [List.filter]. now rewrite String.eqb_refl.
Qed.

Lemma without_absent (query : string) (l : list string) :
  query ∉ l -> SearchHistory.without query l = l.
Proof.
  unfold SearchHistory.without. induction l as [|x l IH]; intros Hin; [reflexivity|].
  apply not_elem_of_cons in Hin as [Hne Hin]. cbn [List.filter].
  destruct (String.eqb_spec x query) as [->|_]; [contradiction|].
  cbn [negb]. now rewrite IH.
Qed.

Lemma without_elem (query x : string) (l : list string) :
  x ∈ SearchHistory.without query l <-> x <> query /\ x ∈ l.
Proof.
  unfold SearchHistory.without. rewrite !list_elem_of_In, filter_In.
  destruct (String.eqb_spec x query) as [->|Hne]; cbn [negb]; split.
  - intros [_ [=]].
  - intros [Hne _]. contradiction.
  - intros [Hin _]. now split.
  - intros [_ Hin]. now split.
Qed.

Lemma without_sublist (query : string) (l : list string) :
  SearchHistory.without query l `sublist_of` l.
Proof.
  unfold SearchHistory.without. induction l as [|x l IH]; [constructor|].
  cbn [List.filter]. destruct (negb (x =? query)%string); now constructor.
Qed.

Lemma without_length_present (query : string) (l : list string) :
  query ∈ l ->
  (List.length (SearchHistory.without query l) < List.length l)%nat.
Proof.
  induction l as [|x l IH]; intros Hin; [now apply elem_of_nil in Hin|].
  unfold SearchHistory.without in *. cbn [List.filter].
  destruct (String.eqb_spec x query) as [->|Hne]; cbn [negb List.length].
  - pose proof (without_length query l) as Hle.
    unfold SearchHistory.without in Hle. lia.
  - apply elem_of_cons in Hin as [->|Hin]; [contradiction|].
    specialize (IH Hin). lia.
Qed.

(** What is left of the new history when the query is taken out again. *)
Lemma without_new_history (query : string) (h : list string) :
  SearchHistory.without query
    (firstn 10 (query :: SearchHistory.without query h))
  = firstn 9 (SearchHistory.without query h).
Proof.
  cbn [firstn]. rewrite without_cons_same. apply without_absent.
  intros Hin. apply (without_not_in query h).
  exact (elem_of_sublist _ _ _ Hin (sublist_take _ 9)).
Qed.

(** X15. In a session that starts with a stored history of at most 10
    entries, none twice, every state the component goes through (the
    first render, the load of the stored history, adding, removing,
    clearing) has at most 10 entries and none twice, in the history and in
    the saved copy; and past the first render the saved copy is the
    history. *)
Theorem history_invariant (stored : list string) (st : SearchHistory.State) :
  Props.bounded_distinct stored ->
  SearchHistory.reachable stored st ->
  Props.bounded_distinct (SearchHistory.searchHistory st)
  /\ Props.bounded_distinct (SearchHistory.saved st)
  /\ (st = SearchHistory.mount stored
      \/ SearchHistory.saved st = SearchHistory.searchHistory st).
Proof.
  intros Hstored Hst.
  destruct (reachable_bounded_distinct stored st Hstored Hst) as [Hh Hs].
  split; [exact Hh|]. split; [exact Hs|].
  exact (reachable_saved stored st Hst).
Qed.

(** X16. Adding the same query twice is adding it once. *)
Theorem addToHistory_idempotent (st : SearchHistory.State) (query : string) :
  SearchHistory.addToHistory (SearchHistory.addToHistory st query) query
  = SearchHistory.addToHistory st query.
Proof.
  unfold SearchHistory.addToHistory at 2.
  destruct (String.eqb (trim query) "") eqn:Hblank.
  - unfold SearchHistory.addToHistory. now rewrite Hblank.
  - unfold SearchHistory.addToHistory. rewrite Hblank. cbn zeta.
    cbn [SearchHistory.set_and_save SearchHistory.searchHistory].
    rewrite without_new_history. cbn [firstn]. now rewrite take_idemp.
Qed.

(** X17. Adding a query and removing it again leaves what removing it
    from the old history leaves, provided the old history is not full or
    already has the query. *)
Theorem remove_after_add (st : SearchHistory.State) (query : string) :
  (List.length (SearchHistory.searchHistory st) <= 10)%nat ->
  ((List.length (SearchHistory.searchHistory st) < 10)%nat
   \/ query ∈ SearchHistory.searchHistory st) ->
  SearchHistory.removeFromHistory (SearchHistory.addToHistory st query) query
  = SearchHistory.removeFromHistory st query.
Proof.
  intros Hcap Hroom. unfold SearchHistory.addToHistory.
  destruct (String.eqb (trim query) ""); [reflexivity|].
  unfold SearchHistory.removeFromHistory. cbn zeta.
  cbn [SearchHistory.set_and_save SearchHistory.searchHistory].
  rewrite without_new_history. rewrite take_ge; [reflexivity|].
  destruct Hroom as [Hlt | Hin].
  - pose proof (without_length query (SearchHistory.searchHistory st)). lia.
  - pose proof (without_length_present query _ Hin). lia.
Qed.

(** A full history loses its oldest entry when a new query is added and
    removed. *)
Example remove_after_add_full :
  let st := fold_left SearchHistory.addToHistory
              ["q1"; "q2"; "q3"; "q4"; "q5"; "q6"; "q7"; "q8"; "q9"; "q10"]
              SearchHistory.initial in
  SearchHistory.searchHistory
    (SearchHistory.removeFromHistory (SearchHistory.addToHistory st "new") "new")
  = ["q10"; "q9"; "q8"; "q7"; "q6"; "q5"; "q4"; "q3"; "q2"].
Proof. reflexivity. Qed.

(** X18. [removeFromHistory] takes every occurrence of the query out and
    nothing else: the other entries stay, in their order; removing again
    changes nothing, and so does removing a query that is not there. *)
Theorem removeFromHistory_removes (st : SearchHistory.State) (query : string) :
  let st' := SearchHistory.removeFromHistory st query in
  (query ∉ SearchHistory.searchHistory st')
  /\ (forall x, x ∈ SearchHistory.searchHistory st'
                <-> (x <> query /\ x ∈ SearchHistory.searchHistory st))
  /\ (SearchHistory.searchHistory st' `sublist_of` SearchHistory.searchHistory st)
  /\ SearchHistory.saved st' = SearchHistory.searchHistory st'
  /\ SearchHistory.removeFromHistory st' query = st'
  /\ (query ∉ SearchHistory.searchHistory st ->
      SearchHistory.searchHistory st' = SearchHistory.searchHistory st).
Proof.
  cbn zeta. unfold SearchHistory.removeFromHistory.
  cbn [SearchHistory.set_and_save SearchHistory.searchHistory SearchHistory.saved].
  split; [apply without_not_in|]. split; [intros x; apply without_elem|].
  split; [apply without_sublist|]. split; [reflexivity|].
  split; [|apply without_absent].
  now rewrite (without_absent query _ (without_not_in query _)).
Qed.

(** ** The favourites *)

Lemma is_favorite_elem (query : string) (favs : list string) :
  SearchHistory.is_favorite query favs = true <-> query ∈ favs.
Proof.
  unfold SearchHistory.is_favorite. rewrite existsb_exists, list_elem_of_In. split.
  - intros (x & Hin & Heq). apply String.eqb_eq in Heq. now subst.
  - intros Hin. exists query. split; [exact Hin | apply String.eqb_refl].
Qed.

(** X19. Every state of the favourites reached by toggling keeps at most
    5 favourites, no favourite twice, and a saved copy equal to the
    list. *)
Theorem favorites_invariant (st : SearchHistory.Favorites) :
  SearchHistory.reachable_favorites st ->
  (List.length (SearchHistory.favorites st) <= 5)%nat
  /\ NoDup (SearchHistory.favorites st)
  /\ SearchHistory.savedFavorites st = SearchHistory.favorites st.
Proof.
  induction 1 as [|st query Hst (Hlen & Hnd & Hsaved)].
  - split; [cbn; lia|]. split; [constructor | reflexivity].
  - unfold SearchHistory.toggleFavorite.
    cbn [SearchHistory.favorites SearchHistory.savedFavorites].
    destruct (SearchHistory.is_favorite query (SearchHistory.favorites st)) eqn:Hfav.
    + split; [|split; [now apply without_NoDup | reflexivity]].
      pose proof (without_length query (SearchHistory.favorites st)). lia.
    + split; [apply firstn_le_length|]. split; [|reflexivity].
      apply NoDup_firstn, NoDup_app. split; [exact Hnd|].
      split; [|apply NoDup_singleton].
      intros x Hx Hq. apply list_elem_of_singleton in Hq as ->.
      apply is_favorite_elem in Hx. congruence.
Qed.

(** X20. Toggling a query that is not a favourite adds it at the end when
    there are fewer than 5 favourites, and toggling it again gives the
    list back; when there are already 5, the query is not added and the
    list stays as it is. *)
Theorem toggleFavorite_new (st : SearchHistory.Favorites) (query : string) :
  SearchHistory.is_favorite query (SearchHistory.favorites st) = false ->
  ((List.length (SearchHistory.favorites st) < 5)%nat ->
   SearchHistory.favorites (SearchHistory.toggleFavorite st query)
   = SearchHistory.favorites st ++ [query]
   /\ SearchHistory.favorites
        (SearchHistory.toggleFavorite (SearchHistory.toggleFavorite st query) query)
      = SearchHistory.favorites st)
  /\ ((List.length (SearchHistory.favorites st) = 5)%nat ->
      SearchHistory.favorites (SearchHistory.toggleFavorite st query)
      = SearchHistory.favorites st
      /\ SearchHistory.is_favorite query
           (SearchHistory.favorites (SearchHistory.toggleFavorite st query)) = false).
Proof.
  intros Hfav.
  assert (Hnot : query ∉ SearchHistory.favorites st).
  { intros Hin. apply is_favorite_elem in Hin. congruence. }
  split.
  - intros Hlen.
    assert (Hadd : SearchHistory.favorites (SearchHistory.toggleFavorite st query)
                   = SearchHistory.favorites st ++ [query]).
    { unfold SearchHistory.toggleFavorite. rewrite Hfav.
      cbn [SearchHistory.favorites]. apply take_ge.
      rewrite length_app. cbn [List.length]. lia. }
    split; [exact Hadd|].
    unfold SearchHistory.toggleFavorite at 1. rewrite Hadd.
    assert (Hnow : SearchHistory.is_favorite query
                     (SearchHistory.favorites st ++ [query]) = true).
    { apply is_favorite_elem, elem_of_app. right. now apply list_elem_of_singleton. }
    rewrite Hnow. cbn [SearchHistory.favorites].
    unfold SearchHistory.without. rewrite List.filter_app. cbn [List.filter].
    rewrite String.eqb_refl. cbn [negb]. rewrite app_nil_r.
    now apply without_absent.
  - intros Hlen.
    assert (Hsame : SearchHistory.favorites (SearchHistory.toggleFavorite st query)
                    = SearchHistory.favorites st).
    { unfold SearchHistory.toggleFavorite. rewrite Hfav.
      cbn [SearchHistory.favorites]. rewrite take_app_le by lia.
      apply take_ge. lia. }
    split; [exact Hsame | now rewrite Hsame].
Qed.

(** X21. Toggling a favourite takes it out of the list and keeps the
    others in their order; toggling it once more puts it back at the end,
    not at its old place. *)
Theorem toggleFavorite_existing (st : SearchHistory.Favorites) (query : string) :
  SearchHistory.is_favorite query (SearchHistory.favorites st) = true ->
  (List.length (SearchHistory.favorites st) <= 5)%nat ->
  (query ∉ SearchHistory.favorites (SearchHistory.toggleFavorite st query))
  /\ (SearchHistory.favorites (SearchHistory.toggleFavorite st query)
      `sublist_of` SearchHistory.favorites st)
  /\ (forall x, x <> query -> x ∈ SearchHistory.favorites st ->
                x ∈ SearchHistory.favorites (SearchHistory.toggleFavorite st query))
  /\ SearchHistory.favorites
       (SearchHistory.toggleFavorite (SearchHistory.toggleFavorite st query) query)
     = SearchHistory.without query (SearchHistory.favorites st) ++ [query].
Proof.
  intros Hfav Hlen.
  assert (Hrem : SearchHistory.favorites (SearchHistory.toggleFavorite st query)
                 = SearchHistory.without query (SearchHistory.favorites st)).
  { unfold SearchHistory.toggleFavorite. now rewrite Hfav. }
  rewrite Hrem. split; [apply without_not_in|]. split; [apply without_sublist|].
  split; [intros x Hne Hin; now apply without_elem|].
  unfold SearchHistory.toggleFavorite at 1. rewrite Hrem.
  assert (Hnot : SearchHistory.is_favorite query
                   (SearchHistory.without query (SearchHistory.favorites st)) = false).
  { destruct (SearchHistory.is_favorite query
                (SearchHistory.without query (SearchHistory.favorites st))) eqn:Hq;
      [|reflexivity].
    apply is_favorite_elem in Hq. now apply without_not_in in Hq. }
  rewrite Hnot. cbn [SearchHistory.favorites]. apply take_ge.
  rewrite length_app. cbn [List.length].
  apply is_favorite_elem in Hfav.
  pose proof (without_length_present query _ Hfav). lia.
Qed.

(** *** Instances *)

Lemma history_invariant_witness :
  Props.bounded_distinct Props.stored_earlier
  /\ SearchHistory.reachable Props.stored_earlier
       (SearchHistory.addToHistory
          (SearchHistory.load (SearchHistory.mount Props.stored_earlier)) "안개")
  /\ SearchHistory.searchHistory
       (SearchHistory.addToHistory
          (SearchHistory.load (SearchHistory.mount Props.stored_earlier)) "안개")
     = ["안개"; "해무"]
  /\ Props.bounded_distinct
       (SearchHistory.searchHistory
          (SearchHistory.addToHistory
             (SearchHistory.load (SearchHistory.mount Props.stored_earlier)) "안개"))
  /\ Props.bounded_distinct
       (SearchHistory.saved
          (SearchHistory.addToHistory
             (SearchHistory.load (SearchHistory.mount Props.stored_earlier)) "안개"))
  /\ (SearchHistory.addToHistory
        (SearchHistory.load (SearchHistory.mount Props.stored_earlier)) "안개"
      = SearchHistory.mount Props.stored_earlier
      \/ SearchHistory.saved
           (SearchHistory.addToHistory
              (SearchHistory.load (SearchHistory.mount Props.stored_earlier)) "안개")
         = SearchHistory.searchHistory
             (SearchHistory.addToHistory
                (SearchHistory.load (SearchHistory.mount Props.stored_earlier)) "안개")).
Proof.
  assert (Hstored : Props.bounded_distinct Props.stored_earlier).
  { split; [cbn; lia|]. repeat constructor; rewrite ?elem_of_cons, ?elem_of_nil;
      intros Hin; decompose [or] Hin; discriminate || contradiction. }
  assert (Hst : SearchHistory.reachable Props.stored_earlier
                  (SearchHistory.addToHistory
                     (SearchHistory.load (SearchHistory.mount Props.stored_earlier))
                     "안개"))
    by apply SearchHistory.reach_add, SearchHistory.reach_load,
             SearchHistory.reach_mount.
  split; [exact Hstored|]. split; [exact Hst|]. split; [reflexivity|].
  exact (history_invariant Props.stored_earlier _ Hstored Hst).
Defined.

Lemma remove_after_add_witness :
  (List.length (SearchHistory.searchHistory
                  (SearchHistory.addToHistory SearchHistory.initial "해무")) <= 10)%nat
  /\ SearchHistory.removeFromHistory
       (SearchHistory.addToHistory
          (SearchHistory.addToHistory SearchHistory.initial "해무") "안개") "안개"
     = SearchHistory.removeFromHistory
         (SearchHistory.addToHistory SearchHistory.initial "해무") "안개".
Proof.
  assert (Hcap : (List.length (SearchHistory.searchHistory
                    (SearchHistory.addToHistory SearchHistory.initial "해무"))
                  <= 10)%nat) by (cbn; lia).
  split; [exact Hcap|].
  apply (remove_after_add
           (SearchHistory.addToHistory SearchHistory.initial "해무") "안개" Hcap).
  left. cbn. lia.
Defined.

Lemma favorites_invariant_witness :
  SearchHistory.reachable_favorites Props.three_favorites
  /\ SearchHistory.savedFavorites Props.three_favorites = ["해무"; "안개"; "cctv"].
Proof.
  assert (Hst : SearchHistory.reachable_favorites Props.three_favorites)
    by (repeat apply SearchHistory.reach_toggle; apply SearchHistory.reach_none).
  split; [exact Hst|].
  destruct (favorites_invariant _ Hst) as (_ & _ & Hsaved). exact Hsaved.
Defined.

Lemma toggleFavorite_new_witness :
  SearchHistory.is_favorite "야간" (SearchHistory.favorites Props.three_favorites)
  = false
  /\ SearchHistory.favorites
       (SearchHistory.toggleFavorite
          (SearchHistory.toggleFavorite Props.three_favorites "야간") "야간")
     = SearchHistory.favorites Props.three_favorites.
Proof.
  split; [reflexivity|].
  destruct (toggleFavorite_new Props.three_favorites "야간" eq_refl) as [Hroom _].
  apply Hroom. cbn. lia.
Defined.

Lemma toggleFavorite_existing_witness :
  SearchHistory.is_favorite "해무" (SearchHistory.favorites Props.three_favorites)
  = true
  /\ SearchHistory.favorites
       (SearchHistory.toggleFavorite
          (SearchHistory.toggleFavorite Props.three_favorites "해무") "해무")
     = SearchHistory.without "해무" (SearchHistory.favorites Props.three_favorites)
       ++ ["해무"].
Proof.
  split; [reflexivity|].
  assert (Hlen : (List.length (SearchHistory.favorites Props.three_favorites) <= 5)%nat)
    by (cbn; lia).
  destruct (toggleFavorite_existing Props.three_favorites "해무" eq_refl Hlen)
    as (_ & _ & _ & Htwice).
  exact Htwice.
Defined.

(** A sixth favourite is not taken. *)
Example toggleFavorite_sixth :
  SearchHistory.favorites
    (fold_left SearchHistory.toggleFavorite ["f1"; "f2"; "f3"; "f4"; "f5"; "f6"]
       SearchHistory.no_favorites)
  = ["f1"; "f2"; "f3"; "f4"; "f5"].
Proof. reflexivity. Qed.

(** ** [App.handleSubmit] *)

(** X22. [handleSubmit] tests the query as [ExGPTAPI.search] does: the
    two keyword lists are the same.  It submits nothing when the query,
    the direct query or else the trimmed input, is empty; otherwise it
    goes to the image search exactly when the query contains an image
    keyword, case ignored, and to the chat when it contains none. *)
Theorem handleSubmit_routes `{Runtime} (directQuery : option string)
    (inputValue : string) :
  (forall q, App.hasImageKeyword q = ExGPTAPI.hasImageKeyword q)
  /\ match App.handleSubmit directQuery inputValue with
     | App.Nothing => App.submitted_query directQuery inputValue = ""
     | App.SearchImages q =>
         q = App.submitted_query directQuery inputValue /\ q <> ""
         /\ Props.has_image_keyword q
     | App.SendChatMessage q =>
         q = App.submitted_query directQuery inputValue /\ q <> ""
         /\ ~ Props.has_image_keyword q
     end.
Proof.
  split; [reflexivity|].
  unfold App.handleSubmit. cbn zeta.
  destruct (String.eqb_spec (App.submitted_query directQuery inputValue) "")
    as [Hempty|Hquery]; [exact Hempty|].
  change (App.hasImageKeyword (App.submitted_query directQuery inputValue))
    with (ExGPTAPI.hasImageKeyword (App.submitted_query directQuery inputValue)).
  destruct (ExGPTAPI.hasImageKeyword (App.submitted_query directQuery inputValue))
    eqn:Hk; (split; [reflexivity|]); (split; [exact Hquery|]).
  - now apply hasImageKeyword_spec.
  - intros Hhas. apply hasImageKeyword_spec in Hhas. congruence.
Qed.

(** The direct query is used as it is, the input is trimmed first. *)
Example handleSubmit_examples :
  App.handleSubmit (H := Props.example_runtime) None "   " = App.Nothing
  /\ App.handleSubmit (H := Props.example_runtime) None "  고속도로 CCTV  "
     = App.SearchImages "고속도로 CCTV"
  /\ App.handleSubmit (H := Props.example_runtime) (Some "안녕하세요") "ignored"
     = App.SendChatMessage "안녕하세요"
  /\ App.handleSubmit (H := Props.example_runtime) (Some " ") ""
     = App.SendChatMessage " ".
Proof. repeat split; reflexivity. Qed.
